(** * Thodar registry dashboard: badges, comparison selection, detail panel

    A shallow embedding of the interactive parts of [RegistrySections.tsx]:
    the three badge components, the comparison-selection state kept by
    [RegistryDashboardSection], the comparison table it renders, and the
    scroll lock / key listener held by [CaseReviewPanel]. *)

From Stdlib Require Import Ascii ZArith.
From stdpp Require Import base strings list gmap pretty.

(** ** JavaScript values the components rely on *)

(** Reading [obj[key]] on an object literal.  Own properties come from the
    literal; a key that is not an own property is looked up on
    [Object.prototype], whose members are functions or objects that carry
    none of the style fields; any other key reads as [undefined]. *)
Inductive JsLookup (A : Type) : Type :=
  | Own (a : A)
  | Inherited
  | Undefined.
Arguments Own {A} a.
Arguments Inherited {A}.
Arguments Undefined {A}.

Definition Object_prototype_keys : list string :=
  [ "constructor"; "hasOwnProperty"; "isPrototypeOf"; "propertyIsEnumerable";
    "toLocaleString"; "toString"; "valueOf"; "__proto__";
    "__defineGetter__"; "__defineSetter__"; "__lookupGetter__";
    "__lookupSetter__" ].

Definition js_get {A} (literal : gmap string A) (key : string) : JsLookup A :=
  match literal !! key with
  | Some a => Own a
  | None => if decide (key ∈ Object_prototype_keys) then Inherited else Undefined
  end.

(** [a ?? b] *)
Definition nullish {A} (a b : JsLookup A) : JsLookup A :=
  match a with
  | Undefined => b
  | _ => a
  end.

(** A component either returns its element or throws while rendering. *)
Inductive Outcome (A : Type) : Type :=
  | Returns (a : A)
  | Throws (error : string).
Arguments Returns {A} a.
Arguments Throws {A} error.

(** Template literal interpolation [`${v}`] of a possibly undefined string. *)
Definition interpolate (v : option string) : string := default "undefined" v.

(** ** Badges *)

Module Badge.

(** One entry of a badge lookup table.  [dot] and [text] are only present
    in the alert table. *)
Record Style := {
  bg : string;
  border : string;
  color : string;
}.

Record AlertStyle := {
  dot : string;
  text : string;
  alert_style : Style;
}.

(** The [<span>] a badge returns: its inline style and its content. *)
Record Span := {
  backgroundColor : option string;
  borderCss : string;
  textColor : option string;
  dotColor : option (option string);
  content : option string;
}.

Definition green : Style :=
  {| bg := "rgba(22,163,74,0.07)"; border := "rgba(22,163,74,0.25)";
     color := "#15803d" |}.
Definition amber : Style :=
  {| bg := "rgba(217,119,6,0.07)"; border := "rgba(217,119,6,0.25)";
     color := "#b45309" |}.
Definition red : Style :=
  {| bg := "rgba(220,38,38,0.07)"; border := "rgba(220,38,38,0.25)";
     color := "#b91c1c" |}.
Definition blue : Style :=
  {| bg := "rgba(67,122,168,0.07)"; border := "rgba(67,122,168,0.25)";
     color := "var(--thodar-blue)" |}.

(** [config] of [AlertBadge]. *)
Definition alert_config : gmap string AlertStyle :=
  <["stable" := {| dot := "#16a34a"; text := "Stable Monitoring";
                   alert_style := green |}]>
  (<["review" := {| dot := "#d97706"; text := "Review Pending";
                    alert_style := amber |}]>
  (<["attention" := {| dot := "#dc2626"; text := "Clinical Attention";
                       alert_style := red |}]> ∅)).

(** [map] of [StatusBadge]. *)
Definition status_map : gmap string Style :=
  <["Scheduled" := blue]> (<["Overdue" := red]> (<["Completed" := green]> ∅)).

(** [map] of [RiskBadge]. *)
Definition risk_map : gmap string Style :=
  <["Low" := green]> (<["Moderate" := amber]> (<["High" := red]> ∅)).

(** The fields are read in the order the JSX mentions them; the first
    read of a field of [undefined] throws. *)
Definition read {A B} (c : JsLookup A) (field : A → B) : Outcome (option B) :=
  match c with
  | Own a => Returns (Some (field a))
  | Inherited => Returns None
  | Undefined => Throws "TypeError: Cannot read properties of undefined"
  end.

Definition bind {A B} (o : Outcome A) (k : A → Outcome B) : Outcome B :=
  match o with
  | Returns a => k a
  | Throws e => Throws e
  end.

Definition StatusBadge (status : string) : Outcome Span :=
  let c := nullish (js_get status_map status) (js_get status_map "Scheduled") in
  bind (read c bg) (λ c_bg,
  bind (read c border) (λ c_border,
  bind (read c color) (λ c_color,
  Returns {| backgroundColor := c_bg;
             borderCss := "1px solid " +:+ interpolate c_border;
             textColor := c_color;
             dotColor := None;
             content := Some status |}))).

Definition AlertBadge (level : string) : Outcome Span :=
  let c := js_get alert_config level in
  bind (read c (bg ∘ alert_style)) (λ c_bg,
  bind (read c (border ∘ alert_style)) (λ c_border,
  bind (read c (color ∘ alert_style)) (λ c_color,
  bind (read c dot) (λ c_dot,
  bind (read c text) (λ c_text,
  Returns {| backgroundColor := c_bg;
             borderCss := "1px solid " +:+ interpolate c_border;
             textColor := c_color;
             dotColor := Some c_dot;
             content := c_text |}))))).

Definition RiskBadge (level : string) : Outcome Span :=
  let c := js_get risk_map level in
  bind (read c bg) (λ c_bg,
  bind (read c border) (λ c_border,
  bind (read c color) (λ c_color,
  Returns {| backgroundColor := c_bg;
             borderCss := "1px solid " +:+ interpolate c_border;
             textColor := c_color;
             dotColor := None;
             content := Some level |}))).

(** The span a badge shows for a table entry. *)
Definition styled (s : Style) (dot : option (option string))
    (content : option string) : Span :=
  {| backgroundColor := Some (bg s);
     borderCss := "1px solid " +:+ border s;
     textColor := Some (color s);
     dotColor := dot;
     content := content |}.


End Badge.

(** ** The registry record *)

Inductive AlertLevel := stable | review | attention.
Inductive RiskLevel := Low | Moderate | High.

Definition AlertLevel_str (l : AlertLevel) : string :=
  match l with
  | stable => "stable"
  | review => "review"
  | attention => "attention"
  end.


(** [ImplantRecord], with the fields that the registry table, the comparison
    table and the badges read.  The remaining fields (age, sex, diagnosis,
    device metadata, review dates) are only printed by the detail panel. *)
Record ImplantRecord := {
  id : string;
  patientId : string;
  implantCategory : string;
  manufacturer : string;
  operatingSurgeon : string;
  surgeryDate : string;
  revisionHistory : string;
  complicationsLogged : nat;
  followUpStatus : string;
  alertLevel : AlertLevel;
  riskLevel : RiskLevel;
}.

#[global] Instance AlertLevel_eq_dec : EqDecision AlertLevel.
Proof. solve_decision. Defined.
#[global] Instance RiskLevel_eq_dec : EqDecision RiskLevel.
Proof. solve_decision. Defined.
#[global] Instance ImplantRecord_eq_dec : EqDecision ImplantRecord.
Proof. solve_decision. Defined.

(** ** Hook state and event handlers *)

(** The [useState] cells: three in [RegistryDashboardSection] and
    [selectedRecord] in [RegistryAndAnalyticsSections]. *)
Record Hooks := {
  comparisonMode : bool;
  selectedIds : list string;
  showComparison : bool;
  selectedRecord : option ImplantRecord;
}.

(** An event handler queues state updates and may raise a blocking
    [alert]; the queued updates are applied before the next render. *)
Record Pending := {
  next : Hooks;
  alerts : list string;
}.

Definition Handler (A : Type) : Type := Pending → A * Pending.

#[global] Instance Handler_ret : MRet Handler := λ A a p, (a, p).
#[global] Instance Handler_bind : MBind Handler :=
  λ A B k m p, let '(a, p') := m p in k a p'.

(** Writing one [useState] cell leaves the others as they are. *)
Definition set_comparisonMode (val : bool) (h : Hooks) : Hooks :=
  {| comparisonMode := val;
     selectedIds := selectedIds h;
     showComparison := showComparison h;
     selectedRecord := selectedRecord h |}.

Definition set_selectedIds (ids : list string) (h : Hooks) : Hooks :=
  {| comparisonMode := comparisonMode h;
     selectedIds := ids;
     showComparison := showComparison h;
     selectedRecord := selectedRecord h |}.

Definition set_showComparison (val : bool) (h : Hooks) : Hooks :=
  {| comparisonMode := comparisonMode h;
     selectedIds := selectedIds h;
     showComparison := val;
     selectedRecord := selectedRecord h |}.

Definition set_selectedRecord (val : option ImplantRecord) (h : Hooks) : Hooks :=
  {| comparisonMode := comparisonMode h;
     selectedIds := selectedIds h;
     showComparison := showComparison h;
     selectedRecord := val |}.

Definition update (f : Hooks → Hooks) : Handler unit :=
  λ p, (tt, {| next := f (next p); alerts := alerts p |}).

Definition setComparisonMode (val : bool) : Handler unit :=
  update (set_comparisonMode val).

(** [setSelectedIds] with an updater function; [setSelectedIds([])] is the
    constant updater. *)
Definition setSelectedIds (f : list string → list string) : Handler unit :=
  update (λ h, set_selectedIds (f (selectedIds h)) h).

Definition setShowComparison (val : bool) : Handler unit :=
  update (set_showComparison val).

Definition setSelectedRecord (val : option ImplantRecord) : Handler unit :=
  update (set_selectedRecord val).

Definition alert (message : string) : Handler unit :=
  λ p, (tt, {| next := next p; alerts := alerts p ++ [message] |}).

Definition skip : Handler unit := mret tt.

(** A handler starts from the rendered state with no alert raised. *)
Definition start (h : Hooks) : Pending := {| next := h; alerts := [] |}.

Definition max_selection_notice : string :=
  "A maximum of 3 implant cases may be selected for comparative review.".

(** [toggleSelection]: the two conditions read [selectedIds] as captured
    by the render the handler was created in; the updaters receive the
    queued value. *)
Definition toggleSelection (rendered : Hooks) (id : string) : Handler unit :=
  if bool_decide (id ∈ selectedIds rendered) then
    setSelectedIds (λ prev, filter (λ x, x ≠ id) prev)
  else if bool_decide (3 ≤ length (selectedIds rendered)) then
    alert max_selection_notice
  else
    setSelectedIds (λ prev, prev ++ [id]).

(** [onCheckedChange] of the comparison-mode switch. *)
Definition onCheckedChange (val : bool) : Handler unit :=
  setComparisonMode val ;;
  if negb val then setSelectedIds (λ _, []) ;; setShowComparison false
  else skip.

(** [onClick] of a registry row. *)
Definition onRowClick (rendered : Hooks) (record : ImplantRecord) : Handler unit :=
  if comparisonMode rendered then toggleSelection rendered (id record)
  else setSelectedRecord (Some record).

(** [onKeyDown] of a registry row. *)
Definition onRowKeyDown (rendered : Hooks) (record : ImplantRecord)
    (key : string) : Handler unit :=
  if bool_decide (key = "Enter" ∨ key = " ") then onRowClick rendered record
  else skip.

(** [onClose] as passed to [CaseReviewPanel]. *)
Definition onClose : Handler unit := setSelectedRecord None.

(** [handleKey], the document-level listener of [CaseReviewPanel]. *)
Definition handleKey (key : string) : Handler unit :=
  if bool_decide (key = "Escape") then onClose else skip.

(** [onKeyDown] of the backdrop. *)
Definition onBackdropKeyDown (key : string) : Handler unit :=
  if bool_decide (key = "Enter" ∨ key = " ") then onClose else skip.

(** Runs one handler per attached listener, in order. *)
Fixpoint fire {A} (listeners : list A) (h : Handler unit) : Handler unit :=
  match listeners with
  | [] => skip
  | _ :: rest => h ;; fire rest h
  end.

(** ** What the dashboard renders *)

(** A table cell of the comparison table: a string, or a badge element. *)
Inductive Node :=
  | Text (s : string)
  | AlertBadgeElement (level : AlertLevel)
  | StatusBadgeElement (status : string).

(** The [key] of an attribute row. *)
Inductive AttributeKey :=
  | KimplantCategory
  | KsurgeryDate
  | KalertLevel
  | KfollowUpStatus
  | KrevisionHistory
  | KcomplicationsLogged.

#[global] Instance AttributeKey_eq_dec : EqDecision AttributeKey.
Proof. solve_decision. Defined.

(** [String(r[key])] *)
Definition stringify (r : ImplantRecord) (key : AttributeKey) : string :=
  match key with
  | KimplantCategory => implantCategory r
  | KsurgeryDate => surgeryDate r
  | KalertLevel => AlertLevel_str (alertLevel r)
  | KfollowUpStatus => followUpStatus r
  | KrevisionHistory => revisionHistory r
  | KcomplicationsLogged => pretty (complicationsLogged r)
  end.

Definition attribute_rows : list (string * AttributeKey) :=
  [ ("Implant Category", KimplantCategory);
    ("Implant Duration", KsurgeryDate);
    ("Alert Level", KalertLevel);
    ("Follow-Up Status", KfollowUpStatus);
    ("Revision History", KrevisionHistory);
    ("Complication Events", KcomplicationsLogged) ].

Record ComparisonTable := {
  header : list string;
  body : list (string * list Node);
}.

Section Dashboard.

(** [registryData.ts] supplies the record list and the duration
    formatter; both are taken as given here. *)
Variable REGISTRY_DATA : list ImplantRecord.
Variable getImplantDuration : string → string.

Definition selectedRecords (h : Hooks) : list ImplantRecord :=
  filter (λ r, id r ∈ selectedIds h) REGISTRY_DATA.

(** Conditions under which the controls are part of the output. *)
Definition checkboxRendered (h : Hooks) : bool := comparisonMode h.

Definition compareButtonRendered (h : Hooks) : bool :=
  comparisonMode h && bool_decide (2 ≤ length (selectedIds h)).

Definition clearButtonRendered (h : Hooks) : bool :=
  comparisonMode h && bool_decide (0 < length (selectedIds h)).

Definition comparisonPanelRendered (h : Hooks) : bool :=
  comparisonMode h && showComparison h
  && bool_decide (2 ≤ length (selectedRecords h)).

Definition caseReviewPanelRendered (h : Hooks) : bool :=
  bool_decide (is_Some (selectedRecord h)).

Definition displayVal (key : AttributeKey) (r : ImplantRecord) : Node :=
  let v := Text (stringify r key) in
  let v := if decide (key = KsurgeryDate)
           then Text (getImplantDuration (surgeryDate r)) else v in
  let v := if decide (key = KalertLevel)
           then AlertBadgeElement (alertLevel r) else v in
  let v := if decide (key = KfollowUpStatus)
           then StatusBadgeElement (followUpStatus r) else v in
  v.

(** The table inside the comparison panel: the "Attribute" column, then
    one column per element of [selectedRecords]. *)
Definition comparisonTable (h : Hooks) : option ComparisonTable :=
  if comparisonPanelRendered h then
    Some {| header := "Attribute" :: (patientId <$> selectedRecords h);
            body := (λ '(label, key),
                       (label, displayVal key <$> selectedRecords h))
                    <$> attribute_rows |}
  else None.

(** ** Events *)

Inductive Target :=
  | Row (idx : nat)
  | Backdrop
  | Body.

Inductive Event :=
  | SwitchChange (val : bool)
  | RowClick (idx : nat)
  | CheckboxChange (idx : nat)
  | CompareSelected
  | ClearSelection
  | CloseComparison
  | ClosePanel
  | BackdropClick
  | KeyDown (target : Target) (key : string)
  | Unmount.

(** The React handler an element has for a key press, if the element is
    part of the output. *)
Definition targetKeyDown (rendered : Hooks) (target : Target) (key : string)
    : option (Handler unit) :=
  match target with
  | Row idx => r ← REGISTRY_DATA !! idx; Some (onRowKeyDown rendered r key)
  | Backdrop =>
      if caseReviewPanelRendered rendered then Some (onBackdropKeyDown key)
      else None
  | Body => Some skip
  end.

(** The handler an event runs, or [None] when the control it addresses
    is not rendered.  A key press reaches the target's own handler and
    then the listeners attached to the document. *)
Definition handler_of (rendered : Hooks) (listeners : list nat) (e : Event)
    : option (Handler unit) :=
  match e with
  | SwitchChange val => Some (onCheckedChange val)
  | RowClick idx => r ← REGISTRY_DATA !! idx; Some (onRowClick rendered r)
  | CheckboxChange idx =>
      r ← REGISTRY_DATA !! idx;
      if checkboxRendered rendered then Some (toggleSelection rendered (id r))
      else None
  | CompareSelected =>
      if compareButtonRendered rendered then Some (setShowComparison true)
      else None
  | ClearSelection =>
      if clearButtonRendered rendered
      then Some (setSelectedIds (λ _, []) ;; setShowComparison false)
      else None
  | CloseComparison =>
      if comparisonPanelRendered rendered then Some (setShowComparison false)
      else None
  | ClosePanel | BackdropClick =>
      if caseReviewPanelRendered rendered then Some onClose else None
  | KeyDown target key =>
      own ← targetKeyDown rendered target key;
      Some (own ;; fire listeners (handleKey key))
  | Unmount => None
  end.

(** ** The page: hook state, the panel's effect, and the document *)

Record Document := {
  body_overflow : string;
  keydown_listeners : list nat;
}.

(** [hooks] is [None] once the component tree is unmounted;
    [panel_listener] is the [handleKey] closure the panel's effect holds
    for its cleanup; [closures] numbers the closures created so far. *)
Record Page := {
  hooks : option Hooks;
  panel_listener : option nat;
  closures : nat;
  document : Document;
}.

(** The effect body of [CaseReviewPanel]. *)
Definition effect_setup (pg : Page) : Page :=
  {| hooks := hooks pg;
     panel_listener := Some (closures pg);
     closures := S (closures pg);
     document :=
       {| body_overflow := "hidden";
          keydown_listeners :=
            keydown_listeners (document pg) ++ [closures pg] |} |}.

(** The cleanup the effect returned. *)
Definition effect_cleanup (pg : Page) : Page :=
  match panel_listener pg with
  | None => pg
  | Some l =>
      {| hooks := hooks pg;
         panel_listener := None;
         closures := closures pg;
         document :=
           {| body_overflow := "";
              keydown_listeners :=
                filter (λ x, x ≠ l) (keydown_listeners (document pg)) |} |}
  end.

Definition with_hooks (h : option Hooks) (pg : Page) : Page :=
  {| hooks := h;
     panel_listener := panel_listener pg;
     closures := closures pg;
     document := document pg |}.

(** Applies the queued state and runs the effects of the render that
    follows; React flushes them before the next event is handled, so a
    handler never sees a page with effects outstanding.  The root
    re-renders only when [selectedRecord] changed; it then passes a new
    [onClose], so a panel that stays mounted cleans up and sets up again.
    React compares the two states with [Object.is], by reference; records
    are values here, so the comparison is by value.  The two agree when no
    two rows of the registry hold equal records, which unique ids ensure;
    on a registry with two equal rows, opening one while the other is shown
    re-runs the effect in the code and not here. *)
Definition commit (old new : Hooks) (pg : Page) : Page :=
  let pg := with_hooks (Some new) pg in
  if decide (selectedRecord old = selectedRecord new) then pg
  else
    let pg := if caseReviewPanelRendered old then effect_cleanup pg else pg in
    if caseReviewPanelRendered new then effect_setup pg else pg.

(** One user interaction: the new page and the alerts raised, or [None]
    when the event cannot happen in this page.  Once the tree is unmounted
    only the document is left to receive key presses, and a listener still
    attached to it would act on no state. *)
Definition dispatch (e : Event) (pg : Page) : option (Page * list string) :=
  match hooks pg with
  | None =>
      match e with
      | KeyDown Body _ => Some (pg, [])
      | _ => None
      end
  | Some h =>
      match e with
      | Unmount => Some (effect_cleanup (with_hooks None pg), [])
      | _ =>
          handler ← handler_of h (keydown_listeners (document pg)) e;
          let '(_, p) := handler (start h) in
          Some (commit h (next p) pg, alerts p)
      end
  end.

Definition initial_hooks : Hooks :=
  {| comparisonMode := false;
     selectedIds := [];
     showComparison := false;
     selectedRecord := None |}.

(** The page as first rendered, in a freshly loaded document: the body has
    no inline overflow style (the panel's effect is the only code that
    writes it) and no key listener is attached. *)
Definition initial : Page :=
  {| hooks := Some initial_hooks;
     panel_listener := None;
     closures := 0;
     document := {| body_overflow := ""; keydown_listeners := [] |} |}.

Fixpoint run (es : list Event) (pg : Page) : option Page :=
  match es with
  | [] => Some pg
  | e :: es => '(pg', _) ← dispatch e pg; run es pg'
  end.

(** ** The states of the comparison-selection machine *)

Inductive Phase := inactive | collecting | ready | comparing.

(** The names the design gives to hook states: [inactive] when the mode
    is off, [comparing] when the comparison table is shown, and with the
    table hidden [ready] from two selected ids on, [collecting] below. *)
Definition phase (h : Hooks) : Phase :=
  if negb (comparisonMode h) then inactive
  else if comparisonPanelRendered h then comparing
  else if bool_decide (2 ≤ length (selectedIds h)) then ready
  else collecting.

(** The detail panel's slot: [None], or the record being shown. *)
Definition showing (pg : Page) : option ImplantRecord :=
  h ← hooks pg; selectedRecord h.

Definition scroll_locked (pg : Page) : Prop :=
  body_overflow (document pg) = "hidden".

(** ** The moves of the hook state

    One constructor per outcome a handler can have; [handler_transition]
    below shows that every handler the page can run makes one of these
    moves. *)
Inductive transition (h : Hooks) : Hooks → list string → Prop :=
  | mode_on :
      transition h (set_comparisonMode true h) []
  | mode_off :
      transition h
        (set_showComparison false
           (set_selectedIds [] (set_comparisonMode false h))) []
  | deselect r :
      r ∈ REGISTRY_DATA → comparisonMode h = true →
      id r ∈ selectedIds h →
      transition h
        (set_selectedIds (filter (λ x, x ≠ id r) (selectedIds h)) h) []
  | select r :
      r ∈ REGISTRY_DATA → comparisonMode h = true →
      id r ∉ selectedIds h → length (selectedIds h) < 3 →
      transition h (set_selectedIds (selectedIds h ++ [id r]) h) []
  | reject r :
      r ∈ REGISTRY_DATA → comparisonMode h = true →
      id r ∉ selectedIds h → 3 ≤ length (selectedIds h) →
      transition h h [max_selection_notice]
  | open_record r :
      r ∈ REGISTRY_DATA → comparisonMode h = false →
      transition h (set_selectedRecord (Some r) h) []
  | compare :
      compareButtonRendered h = true →
      transition h (set_showComparison true h) []
  | clear :
      clearButtonRendered h = true →
      transition h (set_showComparison false (set_selectedIds [] h)) []
  | close_comparison :
      comparisonPanelRendered h = true →
      transition h (set_showComparison false h) []
  | close_panel :
      transition h (set_selectedRecord None h) []
  | idle :
      transition h h [].

(** ** Invariants *)

(** The selection holds distinct ids of registry records, three at most. *)
Definition selection_ok (h : Hooks) : Prop :=
  NoDup (selectedIds h)
  ∧ length (selectedIds h) ≤ 3
  ∧ ∀ i, i ∈ selectedIds h → i ∈ id <$> REGISTRY_DATA.

(** With the mode off nothing is selected and the table flag is down. *)
Definition mode_ok (h : Hooks) : Prop :=
  comparisonMode h = false → selectedIds h = [] ∧ showComparison h = false.

(** The document carries the panel's listener and the scroll lock
    exactly while a record is shown. *)
Definition panel_ok (pg : Page) : Prop :=
  match showing pg with
  | Some _ =>
      ∃ l, panel_listener pg = Some l
           ∧ keydown_listeners (document pg) = [l]
           ∧ body_overflow (document pg) = "hidden"
  | None =>
      panel_listener pg = None
      ∧ keydown_listeners (document pg) = []
      ∧ body_overflow (document pg) = ""
  end.

End Dashboard.

(** ** The duration formatter *)

Module Duration.

Local Open Scope Z_scope.

Inductive Label :=
  | Placeholder
  | Days (n : Z)
  | Months (n : Z)
  | Years (tenths : Z).

Definition render (l : Label) : string :=
  match l with
  | Placeholder => "—"
  | Days n => pretty n +:+ " days"
  | Months n => pretty n +:+ " months"
  | Years t => pretty (t `div` 10) +:+ "." +:+ pretty (t `mod` 10) +:+ " yrs"
  end.

Section Formatter.

(** The host's date facilities: [parse] reads a calendar date string
    as a day number, [None] standing for an invalid date; [now] is the
    day number of the current date.  The two thresholds are the
    month-equivalent and the year-equivalent, in days. *)
Variable parse : string → option Z.
Variable now : Z.
Variable month_threshold year_threshold : Z.

(** Modelled from the spec: the coarsest sensible unit, days below the
    month-equivalent threshold, months below the year-equivalent one,
    otherwise years with one decimal (kept as tenths of a year). *)
Definition label_of (elapsed : Z) : Label :=
  if bool_decide (elapsed < month_threshold) then Days elapsed
  else if bool_decide (elapsed < year_threshold)
       then Months (elapsed `div` month_threshold)
  else Years ((elapsed * 10) `div` year_threshold).

(** Modelled from the spec: [getImplantDuration] is defined in
    registryData.ts, which is not among the sources; the design asks
    for a pure function from a calendar date string to an elapsed-time
    label in days, months or years, with a placeholder dash for a
    missing or invalid date.  The wording of the labels is a choice of
    this model. *)
Definition getImplantDuration (surgeryDate : option string) : string :=
  match surgeryDate with
  | None => render Placeholder
  | Some s =>
      match parse s with
      | None => render Placeholder
      | Some day => render (label_of (now - day))
      end
  end.

End Formatter.

(** A host parser for dates written [YYYY-MM-DD]. *)
Definition digit (a : Ascii.ascii) : option Z :=
  let n := Z.of_N (Ascii.N_of_ascii a) in
  if bool_decide (48 ≤ n ≤ 57)%Z then Some (n - 48)%Z else None.

Fixpoint number_from (acc : Z) (s : string) : option Z :=
  match s with
  | EmptyString => Some acc
  | String a rest => d ← digit a; number_from (acc * 10 + d)%Z rest
  end.

Definition is_leap (y : Z) : bool :=
  bool_decide (y `mod` 4 = 0)%Z
  && (negb (bool_decide (y `mod` 100 = 0)%Z) || bool_decide (y `mod` 400 = 0)%Z).

Definition days_in_month (y m : Z) : Z :=
  if bool_decide (m = 2)%Z then (if is_leap y then 29 else 28)%Z
  else if bool_decide (m ∈ [4; 6; 9; 11]%Z) then 30%Z
  else 31%Z.

(** Days since 1970-01-01 of a civil date. *)
Definition days_from_civil (y m d : Z) : Z :=
  let y' := (if bool_decide (m ≤ 2) then y - 1 else y)%Z in
  let era := (y' `div` 400)%Z in
  let yoe := (y' - era * 400)%Z in
  let mp := (if bool_decide (m ≤ 2) then m + 9 else m - 3)%Z in
  let doy := ((153 * mp + 2) `div` 5 + d - 1)%Z in
  let doe := (yoe * 365 + yoe `div` 4 - yoe `div` 100 + doy)%Z in
  (era * 146097 + doe - 719468)%Z.

Definition iso_date (s : string) : option Z :=
  if bool_decide (String.length s = 10%nat
                  ∧ String.get 4 s = Some "-"%char
                  ∧ String.get 7 s = Some "-"%char) then
    y ← number_from 0 (String.substring 0 4 s);
    m ← number_from 0 (String.substring 5 2 s);
    d ← number_from 0 (String.substring 8 2 s);
    if bool_decide (1 ≤ m ≤ 12 ∧ 1 ≤ d ≤ days_in_month y m)%Z
    then Some (days_from_civil y m d) else None
  else None.

End Duration.

(** ** A registry to run the dashboard on *)

Definition sample_record (n : nat) (status : string) (a : AlertLevel)
    (k : RiskLevel) : ImplantRecord :=
  {| id := "IMP-" +:+ pretty n;
     patientId := "PT-" +:+ pretty n;
     implantCategory := "Total Hip Arthroplasty";
     manufacturer := "Manufacturer " +:+ pretty n;
     operatingSurgeon := "Surgeon " +:+ pretty n;
     surgeryDate := "2021-03-15";
     revisionHistory := "None";
     complicationsLogged := 0;
     followUpStatus := status;
     alertLevel := a;
     riskLevel := k |}.

(** Modelled from the spec: the record list of registryData.ts is not among
    the sources; the design fixes it at ten records with unique [id]s.  The
    field values below are placeholders. *)
Definition sample_registry : list ImplantRecord :=
  [ sample_record 1 "Scheduled" stable Low;
    sample_record 2 "Overdue" review Moderate;
    sample_record 3 "Completed" attention High;
    sample_record 4 "Scheduled" stable Low;
    sample_record 5 "Scheduled" review Moderate;
    sample_record 6 "Completed" stable Low;
    sample_record 7 "Overdue" attention High;
    sample_record 8 "Scheduled" stable Moderate;
    sample_record 9 "Completed" stable Low;
    sample_record 10 "Scheduled" review Low ].

Definition sample_duration (surgeryDate : string) : string :=
  Duration.getImplantDuration Duration.iso_date 20000 30 365 (Some surgeryDate).

(** The page, and its hook state, after a list of interactions with the
    dashboard of the sample registry. *)
Definition sample_page (es : list Event) : Page :=
  default initial (run sample_registry es initial).

Definition sample_hooks (es : list Event) : Hooks :=
  default initial_hooks (hooks (sample_page es)).

(** Three rows selected and compared; two rows selected against registry
    order and compared. *)
Definition compare_three : list Event :=
  [SwitchChange true; RowClick 0; RowClick 1; RowClick 2; CompareSelected].

Definition compare_reversed : list Event :=
  [SwitchChange true; RowClick 2; RowClick 0; CompareSelected].

(** ** The registry table and the comparison controls *)

(** A cell of a registry row. *)
Inductive RegistryCell :=
  | CheckboxCell (checked : bool) (ariaLabel : string)
  | TextCell (s : string)
  | StatusCell (status : string)
  | AlertCell (level : AlertLevel).

(** A [<tr>] of the registry table: its key, whether it carries the
    selected background, whether it has a bottom border, and its cells. *)
Record RegistryRow := {
  rowKey : string;
  highlighted : bool;
  borderBottom : bool;
  cells : list RegistryCell;
}.

(** The line under the table in comparison mode. *)
Record Controls := {
  counter : string;
  compareButton : bool;
  clearButton : bool;
}.

Definition registry_columns : list string :=
  [ "Patient ID"; "Implant Category"; "Manufacturer"; "Surgeon";
    "Surgery Date"; "Duration"; "Follow-Up Status"; "Alert Level" ].

Section RegistryTable.

Variable REGISTRY_DATA : list ImplantRecord.
Variable getImplantDuration : string → string.

(** The header cells; [None] is the empty cell above the checkboxes. *)
Definition registryHeader (h : Hooks) : list (option string) :=
  (if comparisonMode h then [None] else []) ++ (Some <$> registry_columns).

Definition registryRow (h : Hooks) (idx : nat) (record : ImplantRecord)
    : RegistryRow :=
  let isSelected := bool_decide (id record ∈ selectedIds h) in
  {| rowKey := id record;
     highlighted := isSelected;
     borderBottom := bool_decide (idx < length REGISTRY_DATA - 1);
     cells :=
       (if comparisonMode h
        then [CheckboxCell isSelected ("Select " +:+ patientId record)]
        else [])
       ++ [ TextCell (patientId record);
            TextCell (implantCategory record);
            TextCell (manufacturer record);
            TextCell (operatingSurgeon record);
            TextCell (surgeryDate record);
            TextCell (getImplantDuration (surgeryDate record));
            StatusCell (followUpStatus record);
            AlertCell (alertLevel record) ] |}.

Definition registryRows (h : Hooks) : list RegistryRow :=
  imap (registryRow h) REGISTRY_DATA.

Definition comparisonControls (h : Hooks) : option Controls :=
  if comparisonMode h then
    Some {| counter := pretty (length (selectedIds h)) +:+ " of 3 cases selected";
            compareButton := bool_decide (2 ≤ length (selectedIds h));
            clearButton := bool_decide (0 < length (selectedIds h)) |}
  else None.

(** The [id] attributes of the elements the page renders, in document
    order: the sections of [App] and of [RegistryAndAnalyticsSections],
    the mode switch and the registry table inside the dashboard, and the
    comparison panel while it is rendered. *)
Definition page_element_ids (h : Hooks) : list string :=
  [ "hero"; "clinical-problem"; "platform"; "vision"; "team";
    "clinical-problem-registry"; "dashboard"; "comparison-mode"; "registry" ]
  ++ (if comparisonPanelRendered REGISTRY_DATA h then ["comparison"] else [])
  ++ [ "analytics"; "governance"; "audit"; "pilot-scope"; "implementation";
       "scope"; "compliance"; "collaboration" ].

End RegistryTable.

(** ** The navigation bar and the active-section hook *)

Module Nav.

(** [href.slice(1)] *)
Definition slice1 (s : string) : string :=
  match s with
  | EmptyString => ""
  | String _ rest => rest
  end.

Record NavLink := {
  label : string;
  href : string;
}.

Definition NAV_LINKS : list NavLink :=
  [ {| label := "Overview"; href := "#hero" |};
    {| label := "Problem"; href := "#clinical-problem" |};
    {| label := "Platform"; href := "#platform" |};
    {| label := "Vision"; href := "#vision" |};
    {| label := "Team"; href := "#team" |};
    {| label := "Clinical"; href := "#clinical-problem-registry" |};
    {| label := "Dashboard"; href := "#dashboard" |};
    {| label := "Registry"; href := "#registry" |};
    {| label := "Analytics"; href := "#analytics" |};
    {| label := "Comparison"; href := "#comparison" |};
    {| label := "Governance"; href := "#governance" |};
    {| label := "Audit"; href := "#audit" |};
    {| label := "Pilot Scope"; href := "#pilot-scope" |};
    {| label := "Pathway"; href := "#implementation" |};
    {| label := "Scope"; href := "#scope" |};
    {| label := "Compliance"; href := "#compliance" |};
    {| label := "Collaboration"; href := "#collaboration" |} ].

(** The state of [Navigation]: the two [useState] cells, the ids the
    connected observers of [useActiveSection] close over (in creation
    order), and whether the component is still mounted. *)
Record State := {
  activeId : string;
  mobileOpen : bool;
  observers : list string;
  mounted : bool;
}.

(** A nav link as rendered. *)
Record LinkView := {
  link : NavLink;
  isActive : bool;
}.

(** The bar as rendered: the desktop links, the hamburger's label, and the
    mobile dropdown when it is open. *)
Record View := {
  desktop : list LinkView;
  hamburgerLabel : string;
  dropdown : option (list LinkView);
}.

Inductive Event :=
  | Intersect (k : nat) (entries : list bool)
  | Hamburger
  | LinkClick (document : list string) (target : string)
  | Unmount.

(** The observer callback of the section [id]: every intersecting entry
    sets the active id to [id]. *)
Fixpoint callback (id : string) (entries : list bool) (active : string)
    : string :=
  match entries with
  | [] => active
  | isIntersecting :: rest =>
      callback id rest (if isIntersecting then id else active)
  end.

Section Navigation.

(** The link list ([NAV_LINKS] in the source). *)
Variable links : list NavLink.

(** [SECTION_IDS] *)
Definition section_ids : list string := (λ l, slice1 (href l)) <$> links.

(** [useActiveSection(ids)] after its effect ran in [document], the ids of
    the elements present: the active id starts as [ids[0] ?? ""], and an
    observer is created for each id that has an element. *)
Definition mount (document : list string) : State :=
  {| activeId := default "" (head section_ids);
     mobileOpen := false;
     observers := filter (λ i, i ∈ document) section_ids;
     mounted := true |}.

(** One event: the new state and the element scrolled into view, if any.
    [Intersect k entries] is the callback of the [k]-th connected
    observer; [LinkClick document target] is [handleLinkClick] on the link
    with href [target] while [document] lists the elements present. *)
Definition step (e : Event) (s : State) : option (State * option string) :=
  if mounted s then
    match e with
    | Intersect k entries =>
        i ← observers s !! k;
        Some ({| activeId := callback i entries (activeId s);
                 mobileOpen := mobileOpen s;
                 observers := observers s;
                 mounted := true |}, None)
    | Hamburger =>
        Some ({| activeId := activeId s;
                 mobileOpen := negb (mobileOpen s);
                 observers := observers s;
                 mounted := true |}, None)
    | LinkClick document target =>
        if bool_decide (target ∈ href <$> links) then
          Some ({| activeId := activeId s;
                   mobileOpen := false;
                   observers := observers s;
                   mounted := true |},
                if bool_decide (slice1 target ∈ document)
                then Some (slice1 target) else None)
        else None
    | Unmount =>
        Some ({| activeId := activeId s;
                 mobileOpen := mobileOpen s;
                 observers := [];
                 mounted := false |}, None)
    end
  else None.

Fixpoint run (es : list Event) (s : State) : option State :=
  match es with
  | [] => Some s
  | e :: es => '(s', _) ← step e s; run es s'
  end.

Definition linkViews (s : State) : list LinkView :=
  (λ l, {| link := l;
           isActive := bool_decide (activeId s = slice1 (href l)) |}) <$> links.

Definition view (s : State) : View :=
  {| desktop := linkViews s;
     hamburgerLabel :=
       if mobileOpen s then "Close navigation" else "Open navigation";
     dropdown := if mobileOpen s then Some (linkViews s) else None |}.

(** The section ids whose observer reported an intersecting entry, in the
    order of the reports. *)
Fixpoint reports (observed : list string) (es : list Event) : list string :=
  match es with
  | [] => []
  | Intersect k entries :: es =>
      match observed !! k with
      | Some i =>
          (if existsb (λ b, b) entries then [i] else []) ++ reports observed es
      | None => reports observed es
      end
  | _ :: es => reports observed es
  end.

End Navigation.

End Nav.

(** ** The reveal-on-scroll hook *)

Module FadeIn.

(** The wrapped [<div>]: its class tokens, and whether the hook's observer
    is still connected. *)
Record State := {
  classList : list string;
  observing : bool;
}.

(** [classList.add(token)] *)
Definition classList_add (token : string) (classes : list string)
    : list string :=
  if decide (token ∈ classes) then classes else classes ++ [token].

(** The observer callback of [useFadeIn]. *)
Fixpoint callback (entries : list bool) (classes : list string) : list string :=
  match entries with
  | [] => classes
  | isIntersecting :: rest =>
      callback rest
        (if isIntersecting then classList_add "is-visible" classes else classes)
  end.

Inductive Event :=
  | Notify (entries : list bool)
  | Unmount.

#[global] Instance Event_eq_dec : EqDecision Event.
Proof. solve_decision. Defined.

(** The element after the effect ran; [classes] are the tokens of its
    [className] attribute. *)
Definition mount (classes : list string) : State :=
  {| classList := classes; observing := true |}.

Definition step (e : Event) (s : State) : option State :=
  if observing s then
    match e with
    | Notify entries =>
        Some {| classList := callback entries (classList s); observing := true |}
    | Unmount => Some {| classList := classList s; observing := false |}
    end
  else None.

Fixpoint run (es : list Event) (s : State) : option State :=
  match es with
  | [] => Some s
  | e :: es => s' ← step e s; run es s'
  end.

(** Whether a notification carries an intersecting entry. *)
Definition intersecting (e : Event) : bool :=
  match e with
  | Notify entries => existsb (λ b, b) entries
  | Unmount => false
  end.

End FadeIn.

(** The interactions with the selection controls of the dashboard. *)
Definition selection_event (e : Event) : bool :=
  match e with
  | RowClick _ | CheckboxChange _ | CompareSelected | ClearSelection
  | CloseComparison => true
  | _ => false
  end.

(** ** Proof automation *)

(** Settles a decidable closed proposition by evaluation. *)
Ltac by_compute := apply (bool_decide_unpack _); by vm_compute.

(** Resolves the guards of a [handler_of] equation in the context. *)
Ltac open_handler :=
  repeat first
    [ progress simplify_option_eq
    | match goal with
      | H : (if ?b then _ else _) = Some _ |- _ => destruct b eqn:?
      end ].

(** * Properties *)


(** ** Badges *)

Section BadgeFacts.
Import Badge.







(** A status string that names a member of [Object.prototype] finds that
    member instead of a style entry: no fallback, and no style either. *)
Example status_badge_inherited_key :
  StatusBadge "constructor"
  = Returns {| backgroundColor := None;
               borderCss := "1px solid undefined";
               textColor := None;
               dotColor := None;
               content := Some "constructor" |}.
Proof. reflexivity. Qed.

Example alert_badge_inherited_key :
  AlertBadge "toString"
  = Returns {| backgroundColor := None;
               borderCss := "1px solid undefined";
               textColor := None;
               dotColor := Some None;
               content := None |}.
Proof. reflexivity. Qed.

Example risk_badge_inherited_key :
  RiskBadge "__proto__"
  = Returns {| backgroundColor := None;
               borderCss := "1px solid undefined";
               textColor := None;
               dotColor := None;
               content := Some "__proto__" |}.
Proof. reflexivity. Qed.

Example status_badge_overdue :
  StatusBadge "Overdue" = Returns (styled red None (Some "Overdue")).
Proof. reflexivity. Qed.


End BadgeFacts.

(** ** The dashboard and the detail panel *)

Section DashboardFacts.
Context (REGISTRY_DATA : list ImplantRecord).

Local Abbreviation transition := (transition REGISTRY_DATA).
Local Abbreviation handler_of := (handler_of REGISTRY_DATA).
Local Abbreviation dispatch := (dispatch REGISTRY_DATA).
Local Abbreviation run := (run REGISTRY_DATA).
Local Abbreviation selection_ok := (selection_ok REGISTRY_DATA).
Local Abbreviation selectedRecords := (selectedRecords REGISTRY_DATA).
Local Abbreviation comparisonPanelRendered :=
  (comparisonPanelRendered REGISTRY_DATA).
Local Abbreviation phase := (phase REGISTRY_DATA).

Lemma handleKey_eq (key : string) (p : Pending) :
  handleKey key p
  = (tt, if bool_decide (key = "Escape")
         then {| next := set_selectedRecord None (next p); alerts := alerts p |}
         else p).
Proof. unfold handleKey. by case_bool_decide. Qed.

Lemma fire_handleKey {A} (ls : list A) (key : string) (p : Pending) :
  fire ls (handleKey key) p
  = (tt, if bool_decide (key = "Escape" ∧ ls ≠ [])
         then {| next := set_selectedRecord None (next p); alerts := alerts p |}
         else p).
Proof.
  revert p. induction ls as [|l ls IH]; intros p.
  - cbn. rewrite bool_decide_eq_false_2; [done|]. by intros [_ ?].
  - change (fire (l :: ls) (handleKey key) p)
      with (let '(_, p') := handleKey key p in fire ls (handleKey key) p').
    rewrite handleKey_eq. cbv zeta iota beta. rewrite IH.
    destruct (decide (key = "Escape")) as [Hk|Hk].
    + rewrite (bool_decide_eq_true_2 (key = "Escape")) by done.
      rewrite (bool_decide_eq_true_2 (_ ∧ l :: ls ≠ [])) by done.
      by case_bool_decide.
    + rewrite (bool_decide_eq_false_2 (key = "Escape")) by done.
      rewrite !bool_decide_eq_false_2; [done|by intros [? _]..].
Qed.

Lemma toggleSelection_transition (h : Hooks) (r : ImplantRecord) :
  r ∈ REGISTRY_DATA → comparisonMode h = true →
  ∃ p, toggleSelection h (id r) (start h) = (tt, p)
       ∧ transition h (next p) (alerts p).
Proof.
  intros Hr Hmode. unfold toggleSelection.
  case_bool_decide as Hin; [|case_bool_decide as Hlen].
  - eexists; split; [reflexivity|]. cbn. by apply deselect.
  - eexists; split; [reflexivity|]. cbn. by eapply reject.
  - eexists; split; [reflexivity|]. cbn. apply select; [done..|lia].
Qed.

Lemma onRowClick_transition (h : Hooks) (r : ImplantRecord) :
  r ∈ REGISTRY_DATA →
  ∃ p, onRowClick h r (start h) = (tt, p) ∧ transition h (next p) (alerts p).
Proof.
  intros Hr. unfold onRowClick. destruct (comparisonMode h) eqn:Hmode.
  - by apply toggleSelection_transition.
  - eexists; split; [reflexivity|]. cbn. by apply open_record.
Qed.

(** A key press: the target's handler acts on Enter and Space only, the
    document listeners on Escape only. *)
Lemma keydown_transition {A} (h : Hooks) (ls : list A) (key : string)
    (own act : Handler unit) :
  own = (if bool_decide (key = "Enter" ∨ key = " ") then act else skip) →
  (∃ p, act (start h) = (tt, p) ∧ transition h (next p) (alerts p)) →
  ∃ p, (own ;; fire ls (handleKey key)) (start h) = (tt, p)
       ∧ transition h (next p) (alerts p).
Proof.
  intros -> (p & Hact & Hstep).
  unfold mbind, Handler_bind. case_bool_decide as Hkey.
  - rewrite Hact, fire_handleKey.
    rewrite bool_decide_eq_false_2; [by eexists|].
    intros [-> _]. by destruct Hkey.
  - cbn. rewrite fire_handleKey. eexists; split; [done|].
    case_bool_decide; cbn; [apply close_panel|apply idle].
Qed.

Lemma handler_transition (h : Hooks) (ls : list nat) (e : Event)
    (handler : Handler unit) :
  handler_of h ls e = Some handler →
  ∃ p, handler (start h) = (tt, p) ∧ transition h (next p) (alerts p).
Proof.
  destruct e as [val|idx|idx| | | | | |target key| ]; cbn; intros Hh.
  - injection Hh as <-. destruct val; eexists; (split; [reflexivity|]); cbn.
    + apply mode_on.
    + apply mode_off.
  - destruct (REGISTRY_DATA !! idx) as [r|] eqn:Hr; [|done].
    injection Hh as <-. apply onRowClick_transition.
    by eapply list_elem_of_lookup_2.
  - destruct (REGISTRY_DATA !! idx) as [r|] eqn:Hr; [|done]. cbn in Hh.
    unfold checkboxRendered in Hh.
    destruct (comparisonMode h) eqn:Hmode; [|done].
    injection Hh as <-. apply toggleSelection_transition; [|done].
    by eapply list_elem_of_lookup_2.
  - destruct (compareButtonRendered h) eqn:Hc; [|done]. injection Hh as <-.
    eexists; split; [reflexivity|]. by apply compare.
  - destruct (clearButtonRendered h) eqn:Hc; [|done]. injection Hh as <-.
    eexists; split; [reflexivity|]. by apply clear.
  - destruct (comparisonPanelRendered h) eqn:Hc; [|done].
    injection Hh as <-.
    eexists; split; [reflexivity|]. by apply close_comparison.
  - destruct (caseReviewPanelRendered h); [|done]. injection Hh as <-.
    eexists; split; [reflexivity|]. apply close_panel.
  - destruct (caseReviewPanelRendered h); [|done]. injection Hh as <-.
    eexists; split; [reflexivity|]. apply close_panel.
  - destruct (targetKeyDown REGISTRY_DATA h target key) as [own|] eqn:Hown; [|done].
    injection Hh as <-. destruct target as [idx| |]; cbn in Hown.
    + destruct (REGISTRY_DATA !! idx) as [r|] eqn:Hr; [|done].
      injection Hown as <-.
      eapply keydown_transition; [reflexivity|].
      apply onRowClick_transition. by eapply list_elem_of_lookup_2.
    + destruct (caseReviewPanelRendered h); [|done]. injection Hown as <-.
      eapply keydown_transition; [reflexivity|].
      eexists; split; [reflexivity|]. apply close_panel.
    + injection Hown as <-.
      unfold mbind, Handler_bind. cbn. rewrite fire_handleKey.
      eexists; split; [done|].
      case_bool_decide; cbn; [apply close_panel|apply idle].
  - done.
Qed.

Lemma hooks_commit (h h' : Hooks) (pg : Page) :
  hooks (commit h h' pg) = Some h'.
Proof.
  unfold commit. case_decide; [done|].
  destruct (caseReviewPanelRendered h), (caseReviewPanelRendered h');
    unfold effect_setup, effect_cleanup; cbn; by destruct (panel_listener pg).
Qed.

Lemma dispatch_mounted (e : Event) (pg pg' : Page) (h : Hooks) (al : list string) :
  hooks pg = Some h → dispatch e pg = Some (pg', al) →
  (e = Unmount ∧ pg' = effect_cleanup (with_hooks None pg) ∧ al = [])
  ∨ (∃ handler p,
        handler_of h (keydown_listeners (document pg)) e = Some handler
        ∧ handler (start h) = (tt, p)
        ∧ transition h (next p) (alerts p)
        ∧ pg' = commit h (next p) pg ∧ al = alerts p).
Proof.
  intros Hh Hd.
  assert (e = Unmount
          ∨ (handler ← handler_of h (keydown_listeners (document pg)) e;
             let '(_, p) := handler (start h) in
             Some (commit h (next p) pg, alerts p)) = Some (pg', al))
    as [->|Hd'].
  { unfold dispatch in Hd. rewrite Hh in Hd.
    destruct e; (by left) || (by right). }
  { unfold dispatch in Hd. rewrite Hh in Hd.
    injection Hd as <- <-. by left. }
  right. destruct (handler_of _ _ e) as [handler|] eqn:Hhandler; [|done].
  cbn in Hd'. destruct (handler_transition _ _ _ _ Hhandler) as (p & Hp & Hstep).
  rewrite Hp in Hd'. injection Hd' as <- <-. by exists handler, p.
Qed.

Lemma dispatch_unmounted (e : Event) (pg pg' : Page) (al : list string) :
  hooks pg = None → dispatch e pg = Some (pg', al) → pg' = pg ∧ al = [].
Proof.
  intros Hh. unfold dispatch. rewrite Hh.
  destruct e as [| | | | | | | |[]|]; try done. by intros [= <- <-].
Qed.

Lemma run_snoc (es : list Event) (e : Event) (pg : Page) :
  run (es ++ [e]) pg = pg' ← run es pg; fst <$> dispatch e pg'.
Proof.
  revert pg. induction es as [|e' es IH]; intros pg; cbn.
  - by destruct (dispatch e pg) as [[]|].
  - destruct (dispatch e' pg) as [[pg1 ?]|]; [apply IH|done].
Qed.

(** A property of pages that every interaction preserves holds along
    every run. *)
Lemma run_invariant (P : Page → Prop) :
  (∀ e pg pg' al, P pg → dispatch e pg = Some (pg', al) → P pg') →
  ∀ es pg pg', P pg → run es pg = Some pg' → P pg'.
Proof.
  intros Hstep es. induction es as [|e es IH]; intros pg pg' HP; cbn.
  - by intros [= <-].
  - destruct (dispatch e pg) as [[pg1 al]|] eqn:Hd; [|done].
    cbn. apply IH. by eapply Hstep.
Qed.

(** The same for a property of the hook state. *)
Lemma hooks_invariant (P : Hooks → Prop) :
  (∀ h h' al, P h → transition h h' al → P h') →
  ∀ e pg pg' al,
    (∀ h, hooks pg = Some h → P h) → dispatch e pg = Some (pg', al) →
    ∀ h', hooks pg' = Some h' → P h'.
Proof.
  intros Hstep e pg pg' al HP Hd h' Hh'.
  destruct (hooks pg) as [h|] eqn:Hh.
  - destruct (dispatch_mounted _ _ _ _ _ Hh Hd)
      as [(-> & -> & _)|(handler & p & _ & _ & Htr & -> & _)].
    + cbn in Hh'. unfold effect_cleanup in Hh'.
      by destruct (panel_listener (with_hooks None pg)).
    + rewrite hooks_commit in Hh'. injection Hh' as <-. eauto.
  - apply dispatch_unmounted in Hd as [-> _]; [|done]. congruence.
Qed.

Lemma transition_selection_ok (h h' : Hooks) (al : list string) :
  selection_ok h → transition h h' al → selection_ok h'.
Proof.
  intros (Hnd & Hlen & Hreg) Hstep.
  destruct Hstep; unfold selection_ok; cbn; try done.
  - split_and!; [apply NoDup_nil_2 | lia | by intros ? ?%elem_of_nil].
  - split_and!.
    + by apply NoDup_filter.
    + etrans; [apply length_filter|done].
    + intros i [_ ?]%list_elem_of_filter. by apply Hreg.
  - split_and!.
    + apply NoDup_app. split_and!; [done| |apply NoDup_singleton].
      intros i Hi ->%list_elem_of_singleton. done.
    + rewrite length_app. cbn. lia.
    + intros i [?| ->%list_elem_of_singleton]%elem_of_app; [by apply Hreg|].
      by apply list_elem_of_fmap_2.
  - split_and!; [apply NoDup_nil_2 | lia | by intros ? ?%elem_of_nil].
Qed.

Lemma transition_mode_ok (h h' : Hooks) (al : list string) :
  mode_ok h → transition h h' al → mode_ok h'.
Proof.
  intros Hok Hstep.
  destruct Hstep as [| |r _ Hm|r _ Hm|r _ Hm|r _ Hm|Hc|Hc|Hc| |];
    unfold mode_ok; cbn; try done; try congruence.
  - unfold compareButtonRendered in Hc. intros Hm. by rewrite Hm in Hc.
  - unfold comparisonPanelRendered in Hc. intros Hm. by rewrite Hm in Hc.
Qed.

Lemma commit_same (h : Hooks) (pg : Page) :
  hooks pg = Some h → commit h h pg = pg.
Proof.
  intros Hh. unfold commit. rewrite decide_True by done.
  destruct pg; cbn in *. by subst.
Qed.

(** A handler that leaves [selectedRecord] alone changes the hook state
    only. *)
Lemma commit_dashboard (h h' : Hooks) (pg : Page) :
  selectedRecord h = selectedRecord h' →
  commit h h' pg = with_hooks (Some h') pg.
Proof. intros Heq. unfold commit. by rewrite decide_True. Qed.

Lemma run_reachable_selection (es : list Event) (pg : Page) (h : Hooks) :
  run es initial = Some pg → hooks pg = Some h → selection_ok h.
Proof.
  intros Hrun. revert h.
  refine (run_invariant (λ pg, ∀ h, hooks pg = Some h → selection_ok h)
            _ es initial pg _ Hrun).
  - intros e pg1 pg2 al. apply hooks_invariant.
    intros ???. apply transition_selection_ok.
  - intros h [= <-]. split_and!; cbn; [apply NoDup_nil_2|lia|].
    by intros ? ?%elem_of_nil.
Qed.

Lemma run_reachable_mode (es : list Event) (pg : Page) (h : Hooks) :
  run es initial = Some pg → hooks pg = Some h → mode_ok h.
Proof.
  intros Hrun. revert h.
  refine (run_invariant (λ pg, ∀ h, hooks pg = Some h → mode_ok h)
            _ es initial pg _ Hrun).
  - intros e pg1 pg2 al. apply hooks_invariant.
    intros ???. apply transition_mode_ok.
  - by intros h [= <-].
Qed.

(** C4: with three ids selected, toggling the id of a further registry
    record, by row click, by its checkbox or by Enter on the row, raises
    the "maximum of 3" alert and leaves the whole page as it was. *)
Theorem fourth_selection_rejected (es : list Event) (pg : Page) (h : Hooks)
    (idx : nat) (r : ImplantRecord)
    (Hrun : run es initial = Some pg) (Hh : hooks pg = Some h)
    (Hthree : length (selectedIds h) = 3)
    (Hr : REGISTRY_DATA !! idx = Some r) (Hnew : id r ∉ selectedIds h) :
  toggleSelection h (id r) (start h)
    = (tt, {| next := h; alerts := [max_selection_notice] |})
  ∧ dispatch (RowClick idx) pg = Some (pg, [max_selection_notice])
  ∧ dispatch (CheckboxChange idx) pg = Some (pg, [max_selection_notice])
  ∧ dispatch (KeyDown (Row idx) "Enter") pg = Some (pg, [max_selection_notice])
  ∧ ∃ before after,
      max_selection_notice = before +:+ "maximum of 3" +:+ after.
Proof.
  assert (comparisonMode h = true) as Hmode.
  { destruct (comparisonMode h) eqn:Hm; [done|].
    destruct (run_reachable_mode _ _ _ Hrun Hh Hm) as [Hnil _].
    by rewrite Hnil in Hthree. }
  assert (toggleSelection h (id r) (start h)
          = (tt, {| next := h; alerts := [max_selection_notice] |})) as Htoggle.
  { unfold toggleSelection.
    rewrite bool_decide_eq_false_2, bool_decide_eq_true_2 by (done || lia).
    done. }
  split_and!.
  - done.
  - unfold dispatch. rewrite Hh. cbn. rewrite Hr. cbn.
    unfold onRowClick. rewrite Hmode, Htoggle. cbn. by rewrite commit_same.
  - unfold dispatch. rewrite Hh. cbn. rewrite Hr. cbn.
    unfold checkboxRendered. rewrite Hmode. cbn. rewrite Htoggle. cbn.
    by rewrite commit_same.
  - unfold dispatch. rewrite Hh. cbn. rewrite Hr. cbn.
    unfold mbind, Handler_bind, onRowKeyDown, onRowClick.
    rewrite bool_decide_eq_true_2 by (by left).
    rewrite Hmode, Htoggle, fire_handleKey.
    rewrite bool_decide_eq_false_2 by (by intros [? _]).
    cbn. by rewrite commit_same.
  - by exists "A ", " implant cases may be selected for comparative review.".
Qed.

(** C5: along every run the selection is a duplicate-free list of at most
    three ids of registry records, and every interaction (a toggle, clear
    selection, the mode switch, or any other) keeps it so. *)
Theorem selection_invariant (es : list Event) (pg : Page) (h : Hooks)
    (Hrun : run es initial = Some pg) (Hh : hooks pg = Some h) :
  selection_ok h
  ∧ ∀ e pg0 pg1 al h0 h1,
      hooks pg0 = Some h0 → selection_ok h0 →
      dispatch e pg0 = Some (pg1, al) → hooks pg1 = Some h1 →
      selection_ok h1.
Proof.
  split.
  - by eapply run_reachable_selection.
  - intros e pg0 pg1 al h0 h1 Hh0 Hok Hd Hh1.
    eapply (hooks_invariant selection_ok); [|..|exact Hd|exact Hh1].
    + intros ???. apply transition_selection_ok.
    + intros h' Hh'. congruence.
Qed.

(** C6: switching the mode off empties the selection, lowers the table
    flag and takes the comparison table away, from any state; along every
    run the selection is empty and the flag is down whenever the mode is
    off; and switching the mode on from there gives the collecting state
    with an empty selection and the flag still down. *)
Theorem mode_off_clears (es : list Event) (pg any : Page) (h h0 : Hooks)
    (Hany : hooks any = Some h0)
    (Hrun : run es initial = Some pg) (Hh : hooks pg = Some h) :
  (∃ pg' h', dispatch (SwitchChange false) any = Some (pg', [])
             ∧ hooks pg' = Some h'
             ∧ comparisonMode h' = false ∧ selectedIds h' = []
             ∧ showComparison h' = false
             ∧ comparisonPanelRendered h' = false
             ∧ phase h' = inactive)
  ∧ (comparisonMode h = false →
       selectedIds h = [] ∧ showComparison h = false
       ∧ comparisonPanelRendered h = false
       ∧ phase h = inactive)
  ∧ (comparisonMode h = false →
       ∃ pg' h', dispatch (SwitchChange true) pg = Some (pg', [])
                 ∧ hooks pg' = Some h'
                 ∧ comparisonMode h' = true ∧ selectedIds h' = []
                 ∧ showComparison h' = false
                 ∧ phase h' = collecting).
Proof.
  split_and!.
  - unfold dispatch. rewrite Hany. cbn.
    eexists _, _. split; [reflexivity|]. rewrite hooks_commit.
    split; [reflexivity|]. done.
  - intros Hoff. destruct (run_reachable_mode _ _ _ Hrun Hh Hoff) as [Hnil Hflag].
    unfold phase, comparisonPanelRendered. by rewrite Hoff.
  - intros Hoff. destruct (run_reachable_mode _ _ _ Hrun Hh Hoff) as [Hnil Hflag].
    unfold dispatch. rewrite Hh. cbn.
    eexists _, _. split; [reflexivity|]. rewrite hooks_commit.
    split; [reflexivity|]. cbn. split_and!; [done..|].
    unfold phase, comparisonPanelRendered. cbn. by rewrite Hnil, Hflag.
Qed.

(** *** Selected records against selected ids *)

Lemma selectedRecords_at_least (h : Hooks) (rs : list ImplantRecord) :
  NoDup rs →
  (∀ r, r ∈ rs → r ∈ REGISTRY_DATA ∧ id r ∈ selectedIds h) →
  length rs ≤ length (selectedRecords h).
Proof.
  intros Hnd Hin. apply submseteq_length, NoDup_submseteq; [done|].
  intros r Hr. apply list_elem_of_filter. destruct (Hin r Hr). done.
Qed.

Lemma set_showComparison_id (h : Hooks) :
  set_showComparison (showComparison h) h = h.
Proof. by destruct h. Qed.

Hypothesis ids_unique : NoDup (id <$> REGISTRY_DATA).

Lemma registry_NoDup : NoDup REGISTRY_DATA.
Proof. by eapply NoDup_fmap_1. Qed.

Lemma id_inj_registry (r1 r2 : ImplantRecord) :
  r1 ∈ REGISTRY_DATA → r2 ∈ REGISTRY_DATA → id r1 = id r2 → r1 = r2.
Proof.
  intros [i Hi]%list_elem_of_lookup_1 [j Hj]%list_elem_of_lookup_1 Heq.
  assert (i = j) as ->; [|congruence].
  eapply NoDup_lookup; [exact ids_unique|..]; rewrite list_lookup_fmap.
  - by rewrite Hi.
  - rewrite Hj. cbn. by rewrite Heq.
Qed.

Lemma selectedRecords_length (h : Hooks) :
  length (selectedRecords h) ≤ length (selectedIds h).
Proof.
  rewrite <-(length_fmap id (selectedRecords h)).
  apply submseteq_length, NoDup_submseteq.
  - eapply sublist_NoDup; [exact ids_unique|apply fmap_sublist, sublist_filter].
  - intros i (r & -> & Hr)%list_elem_of_fmap.
    by apply list_elem_of_filter in Hr as [? _].
Qed.

Lemma panel_needs_two (h : Hooks) :
  comparisonPanelRendered h = true →
  comparisonMode h = true ∧ showComparison h = true
  ∧ 2 ≤ length (selectedRecords h) ∧ 2 ≤ length (selectedIds h).
Proof.
  unfold comparisonPanelRendered.
  intros [[Hm Hs]%andb_true_iff Hl%bool_decide_eq_true]%andb_true_iff.
  split_and!; [done..|]. etrans; [done|apply selectedRecords_length].
Qed.

(** C3, as the code has it: in comparison mode, toggling a selected id, by
    a click on its row, by its checkbox, or by Enter or Space on its row,
    removes that id from the selection and changes nothing else on the
    page: the mode, the table flag, the shown record and the document are
    as before.  After the removal the state is collecting exactly when
    fewer than two ids remain.  Deselecting B from A, B, C while comparing
    leaves A, C with the comparison table still shown. *)
Theorem deselect_removes (pg : Page) (h : Hooks) (idx : nat) (r : ImplantRecord)
    (Hh : hooks pg = Some h) (Hmode : comparisonMode h = true)
    (Hr : REGISTRY_DATA !! idx = Some r) (Hsel : id r ∈ selectedIds h) :
  ∃ pg' h',
    h' = set_selectedIds (filter (λ x, x ≠ id r) (selectedIds h)) h
    ∧ pg' = with_hooks (Some h') pg
    ∧ dispatch (RowClick idx) pg = Some (pg', [])
    ∧ dispatch (CheckboxChange idx) pg = Some (pg', [])
    ∧ dispatch (KeyDown (Row idx) "Enter") pg = Some (pg', [])
    ∧ dispatch (KeyDown (Row idx) " ") pg = Some (pg', [])
    ∧ hooks pg' = Some h'
    ∧ selectedIds h' = filter (λ x, x ≠ id r) (selectedIds h)
    ∧ (id r ∉ selectedIds h')
    ∧ comparisonMode h' = true ∧ showComparison h' = showComparison h
    ∧ selectedRecord h' = selectedRecord h
    ∧ document pg' = document pg ∧ panel_listener pg' = panel_listener pg
    ∧ (phase h' = collecting ↔ length (selectedIds h') < 2)
    ∧ (∀ a c, selectedIds h = [id a; id r; id c] → NoDup (selectedIds h) →
              a ∈ REGISTRY_DATA → c ∈ REGISTRY_DATA → phase h = comparing →
              selectedIds h' = [id a; id c] ∧ phase h' = comparing).
Proof.
  set (h' := set_selectedIds (filter (λ x, x ≠ id r) (selectedIds h)) h).
  assert (toggleSelection h (id r) (start h)
          = (tt, {| next := h'; alerts := [] |})) as Htoggle.
  { unfold toggleSelection. by rewrite bool_decide_eq_true_2. }
  assert (commit h h' pg = with_hooks (Some h') pg) as Hcommit.
  { by apply commit_dashboard. }
  assert (∀ key, key = "Enter" ∨ key = " " →
            dispatch (KeyDown (Row idx) key) pg
            = Some (with_hooks (Some h') pg, [])) as Hkey.
  { intros key Hkey. unfold dispatch. rewrite Hh. cbn. rewrite Hr. cbn.
    unfold mbind, Handler_bind, onRowKeyDown, onRowClick.
    rewrite bool_decide_eq_true_2 by done.
    rewrite Hmode, Htoggle, fire_handleKey.
    rewrite bool_decide_eq_false_2 by (by intros [-> _]; destruct Hkey).
    cbn. by rewrite Hcommit. }
  exists (with_hooks (Some h') pg), h'.
  split_and!; try done.
  - unfold dispatch. rewrite Hh. cbn. rewrite Hr. cbn.
    unfold onRowClick. rewrite Hmode, Htoggle. cbn. by rewrite Hcommit.
  - unfold dispatch. rewrite Hh. cbn. rewrite Hr. cbn.
    unfold checkboxRendered. rewrite Hmode. cbn. rewrite Htoggle. cbn.
    by rewrite Hcommit.
  - apply Hkey. by left.
  - apply Hkey. by right.
  - cbn. by intros [Hne _]%list_elem_of_filter.
  - unfold phase. cbn [comparisonMode h' set_selectedIds]. rewrite Hmode.
    cbn [negb]. destruct (comparisonPanelRendered h') eqn:Hshown.
    + apply panel_needs_two in Hshown as (_ & _ & _ & Htwo).
      split; [done|]. lia.
    + case_bool_decide; split; try done; lia.
  - intros a c Hids Hnd Ha Hc Hphase. subst h'. cbn. rewrite Hids in Hnd |- *.
    apply NoDup_cons in Hnd as [Har Hnd]. apply NoDup_cons in Hnd as [Hrc _].
    apply not_elem_of_cons in Har as [Har Hac].
    apply not_elem_of_cons in Hac as [Hac _].
    apply not_elem_of_cons in Hrc as [Hrc _].
    assert (filter (λ x, x ≠ id r) [id a; id r; id c] = [id a; id c]) as Hf.
    { rewrite filter_cons_True, filter_cons_False, filter_cons_True by auto.
      done. }
    split; [done|]. rewrite Hf.
    assert (showComparison h = true) as Hflag.
    { unfold phase in Hphase. rewrite Hmode in Hphase. cbn in Hphase.
      destruct (comparisonPanelRendered h) eqn:Hshown; [|by case_bool_decide].
      by apply panel_needs_two in Hshown as (_ & ? & _). }
    unfold phase, comparisonPanelRendered. cbn. rewrite Hmode, Hflag. cbn.
    rewrite bool_decide_eq_true_2; [done|].
    apply (selectedRecords_at_least _ [a; c]).
    + apply NoDup_cons. split; [|apply NoDup_singleton].
      intros ->%list_elem_of_singleton. done.
    + cbn. intros x [->|[->|[]%elem_of_nil]%elem_of_cons]%elem_of_cons;
        (split; [done|]); set_solver.
Qed.

(** C10: the close control of the comparison table only lowers the table
    flag: the mode stays on, the selection and the rest of the page are
    as before, and Compare Selected brings the same table back. *)
Theorem close_comparison_keeps_selection (pg : Page) (h : Hooks)
    (Hh : hooks pg = Some h) (Hshown : comparisonPanelRendered h = true) :
  ∃ pg' h',
    dispatch CloseComparison pg = Some (pg', []) ∧ hooks pg' = Some h'
    ∧ comparisonPanelRendered h' = false
    ∧ comparisonMode h' = true
    ∧ selectedIds h' = selectedIds h
    ∧ selectedRecord h' = selectedRecord h
    ∧ document pg' = document pg
    ∧ dispatch CompareSelected pg' = Some (pg, []).
Proof.
  destruct (panel_needs_two _ Hshown) as (Hmode & Hflag & _ & Htwo).
  unfold dispatch. rewrite Hh. cbn. rewrite Hshown. cbn.
  rewrite commit_dashboard by done.
  eexists _, _. split; [reflexivity|]. split; [reflexivity|]. cbn.
  split_and!; try done.
  - unfold comparisonPanelRendered. cbn. by rewrite Hmode.
  - unfold compareButtonRendered. cbn. rewrite Hmode. cbn.
    rewrite bool_decide_eq_true_2 by done. cbn.
    rewrite commit_dashboard by done.
    rewrite <-Hflag at 1.
    destruct h, pg; cbn in *. by subst.
Qed.

(** *** The table flag is raised by Compare Selected only *)

Lemma toggleSelection_flag (h : Hooks) (i : string) (p : Pending) :
  showComparison (next (toggleSelection h i p).2) = showComparison (next p).
Proof.
  unfold toggleSelection. by repeat case_bool_decide.
Qed.

Lemma onRowClick_flag (h : Hooks) (r : ImplantRecord) (p : Pending) :
  showComparison (next (onRowClick h r p).2) = showComparison (next p).
Proof.
  unfold onRowClick. destruct (comparisonMode h); [|done].
  apply toggleSelection_flag.
Qed.

Lemma keydown_flag {A} (ls : list A) (key : string) (own : Handler unit)
    (p : Pending) :
  showComparison (next (own p).2) = showComparison (next p) →
  showComparison (next ((own ;; fire ls (handleKey key)) p).2)
  = showComparison (next p).
Proof.
  unfold mbind, Handler_bind. destruct (own p) as [[] p1]. cbn.
  rewrite fire_handleKey. intros <-. by case_bool_decide.
Qed.

Lemma flag_raised (h : Hooks) (ls : list nat) (e : Event)
    (handler : Handler unit) :
  handler_of h ls e = Some handler →
  showComparison h = false →
  showComparison (next (handler (start h)).2) = true →
  e = CompareSelected ∧ compareButtonRendered h = true.
Proof.
  intros Hhandler Hdown Hup.
  assert (e ≠ CompareSelected →
          showComparison (next (handler (start h)).2) = showComparison h
          ∨ showComparison (next (handler (start h)).2) = false) as Hother.
  { intros Hne.
    destruct e as [val|idx|idx| | | | | |target key| ]; cbn in Hhandler;
      open_handler;
      first [ done
            | by left; first [apply onRowClick_flag|apply toggleSelection_flag]
            | by right
            | idtac ].
    - destruct val; cbn; auto.
    - left. apply keydown_flag.
      destruct target as [idx| |]; cbn in *; open_handler.
      + unfold onRowKeyDown. case_bool_decide; [|done]. apply onRowClick_flag.
      + unfold onBackdropKeyDown. by case_bool_decide.
      + done. }
  destruct e; try (destruct Hother as [Hsame|Hfalse]; [done|congruence..]).
  split; [done|]. cbn in Hhandler.
  by destruct (compareButtonRendered h).
Qed.

Lemma run_snoc_inv (es : list Event) (e : Event) (pg : Page) :
  run (es ++ [e]) initial = Some pg →
  ∃ pg0 al, run es initial = Some pg0 ∧ dispatch e pg0 = Some (pg, al).
Proof.
  rewrite run_snoc. destruct (run es initial) as [pg0|]; [|done]. cbn.
  destruct (dispatch e pg0) as [[pg1 al]|] eqn:Hd; [|done].
  intros [= <-]. by exists pg0, al.
Qed.

Lemma compare_history (es : list Event) (pg : Page) (h : Hooks) :
  run es initial = Some pg → hooks pg = Some h → showComparison h = true →
  ∃ es1 es2 pg1 h1,
    es = es1 ++ CompareSelected :: es2
    ∧ run es1 initial = Some pg1 ∧ hooks pg1 = Some h1 ∧ phase h1 = ready.
Proof.
  revert pg h. induction es as [|e es IH] using rev_ind; intros pg h Hrun Hh Hflag.
  { injection Hrun as <-. by injection Hh as <-. }
  apply run_snoc_inv in Hrun as (pg0 & al & Hrun0 & Hd).
  destruct (hooks pg0) as [h0|] eqn:Hh0.
  2:{ apply dispatch_unmounted in Hd as [-> _]; [congruence|done]. }
  destruct (showComparison h0) eqn:Hflag0.
  { destruct (IH _ _ Hrun0 Hh0 Hflag0) as (es1 & es2 & pg1 & h1 & -> & ?).
    exists es1, (es2 ++ [e]), pg1, h1. split; [|done].
    by rewrite <-app_assoc. }
  destruct (dispatch_mounted _ _ _ _ _ Hh0 Hd)
    as [(-> & -> & _)|(handler & p & Hhandler & Hp & _ & -> & _)].
  { cbn in Hh. unfold effect_cleanup in Hh.
    by destruct (panel_listener (with_hooks None pg0)). }
  rewrite hooks_commit in Hh. injection Hh as <-.
  destruct (flag_raised _ _ _ _ Hhandler Hflag0) as [-> Hbutton].
  { by rewrite Hp. }
  exists es, [], pg0, h0. split_and!; [done..|].
  unfold compareButtonRendered in Hbutton.
  apply andb_true_iff in Hbutton as [Hmode Htwo].
  unfold phase, comparisonPanelRendered. by rewrite Hmode, Hflag0, Htwo.
Qed.

Lemma selectedRecords_ids (h : Hooks) :
  selection_ok h → id <$> selectedRecords h ≡ₚ selectedIds h.
Proof.
  intros (Hnd & _ & Hreg). apply NoDup_Permutation; [|done|].
  - eapply sublist_NoDup; [exact ids_unique|apply fmap_sublist, sublist_filter].
  - intros i. split.
    + intros (r & -> & Hr)%list_elem_of_fmap.
      by apply list_elem_of_filter in Hr as [? _].
    + intros Hi. pose proof (Hreg i Hi) as (r & -> & Hr)%list_elem_of_fmap.
      apply list_elem_of_fmap_2. by apply list_elem_of_filter.
Qed.

Lemma selectedRecords_count (h : Hooks) :
  selection_ok h → length (selectedRecords h) = length (selectedIds h).
Proof.
  intros Hok. rewrite <-(length_fmap id (selectedRecords h)).
  by rewrite (selectedRecords_ids h Hok).
Qed.

(** C7: along every run, Compare Selected is accepted only with the mode
    on and two or more ids selected; from a ready state it shows the
    table; and whenever the comparison table is shown, the mode is on,
    two or more records are selected, and the run went through a ready
    state in which Compare Selected was activated. *)
Theorem comparison_needs_ready (es : list Event) (pg : Page) (h : Hooks)
    (Hrun : run es initial = Some pg) (Hh : hooks pg = Some h) :
  (is_Some (dispatch CompareSelected pg) →
     comparisonMode h = true ∧ 2 ≤ length (selectedIds h))
  ∧ (phase h = ready →
       ∃ pg' h', dispatch CompareSelected pg = Some (pg', [])
                 ∧ hooks pg' = Some h' ∧ phase h' = comparing)
  ∧ (comparisonPanelRendered h = true →
       comparisonMode h = true
       ∧ 2 ≤ length (selectedIds h) ∧ 2 ≤ length (selectedRecords h)
       ∧ ∃ es1 es2 pg1 h1,
           es = es1 ++ CompareSelected :: es2
           ∧ run es1 initial = Some pg1 ∧ hooks pg1 = Some h1
           ∧ phase h1 = ready).
Proof.
  split_and!.
  - unfold dispatch. rewrite Hh. cbn. unfold compareButtonRendered.
    destruct (comparisonMode h); cbn; [|by intros []].
    case_bool_decide; [done|by intros []].
  - unfold phase. destruct (comparisonMode h) eqn:Hmode; [cbn|done].
    destruct (comparisonPanelRendered h) eqn:Hshown; [done|].
    case_bool_decide as Htwo; [intros _|done].
    unfold dispatch. rewrite Hh. cbn. unfold compareButtonRendered.
    rewrite Hmode, bool_decide_eq_true_2 by done. cbn.
    eexists _, _. split; [reflexivity|]. rewrite hooks_commit.
    split; [reflexivity|].
    unfold phase, comparisonPanelRendered. cbn. rewrite Hmode. cbn.
    rewrite bool_decide_eq_true_2; [done|].
    change (2 ≤ length (selectedRecords h)).
    rewrite selectedRecords_count; [done|].
    by eapply run_reachable_selection.
  - intros Hshown.
    destruct (panel_needs_two _ Hshown) as (Hmode & Hflag & Hrecs & Hids).
    split_and!; [done..|]. by eapply compare_history.
Qed.

(** *** The panel's effect *)

Lemma commit_panel_ok (h h' : Hooks) (pg : Page) :
  hooks pg = Some h → panel_ok pg → panel_ok (commit h h' pg).
Proof.
  intros Hh. unfold panel_ok, showing, commit. rewrite Hh. cbn.
  case_decide as Heq.
  - cbn. by rewrite Heq.
  - unfold caseReviewPanelRendered.
    destruct (selectedRecord h) as [r|], (selectedRecord h') as [r'|] eqn:Hr';
      cbn; try done.
    + intros (l & Hl & Hls & _).
      unfold effect_setup, effect_cleanup. cbn. rewrite Hl. cbn.
      rewrite Hr', Hls, filter_cons_False, filter_nil by (by intros ?). eauto.
    + intros (l & Hl & Hls & _).
      unfold effect_cleanup. cbn. rewrite Hl. cbn.
      by rewrite Hr', Hls, filter_cons_False, filter_nil by (by intros ?).
    + intros (_ & Hls & _). rewrite Hr', Hls. eauto.
Qed.

Lemma unmount_panel_ok (pg : Page) :
  panel_ok pg → panel_ok (effect_cleanup (with_hooks None pg)).
Proof.
  unfold panel_ok, effect_cleanup. cbn.
  destruct (showing pg); [intros (l & Hl & Hls & _)|intros (Hl & ?)];
    rewrite Hl; cbn; [|done].
  by rewrite Hls, filter_cons_False, filter_nil by (by intros ?).
Qed.

Lemma dispatch_panel_ok (e : Event) (pg pg' : Page) (al : list string) :
  panel_ok pg → dispatch e pg = Some (pg', al) → panel_ok pg'.
Proof.
  intros Hok Hd. destruct (hooks pg) as [h|] eqn:Hh.
  - destruct (dispatch_mounted _ _ _ _ _ Hh Hd)
      as [(_ & -> & _)|(_ & p & _ & _ & _ & -> & _)].
    + by apply unmount_panel_ok.
    + by apply commit_panel_ok.
  - by apply dispatch_unmounted in Hd as [-> _].
Qed.

Lemma run_reachable_panel (es : list Event) (pg : Page) :
  run es initial = Some pg → panel_ok pg.
Proof.
  apply (run_invariant panel_ok).
  - intros e pg1 pg2 al. apply dispatch_panel_ok.
  - done.
Qed.

Lemma panel_ok_closed (pg : Page) :
  panel_ok pg → showing pg = None →
  ¬ scroll_locked pg
  ∧ body_overflow (document pg) = body_overflow (document initial)
  ∧ keydown_listeners (document pg) = [].
Proof.
  unfold panel_ok, scroll_locked. intros Hok Hnone. rewrite Hnone in Hok.
  destruct Hok as (_ & Hls & Hov). rewrite Hov. done.
Qed.

Local Arguments handleKey : simpl never.

(** C8: along every run the body's scroll lock is on exactly while a
    record is shown, together with exactly one key listener of the
    panel; opening a record puts the lock on; and the close control, the
    backdrop, the Escape key and unmounting each lead to a page that
    shows no record, has the overflow style it started with, and has no
    key listener left. *)
Theorem scroll_lock_tracks_panel (es : list Event) (pg : Page)
    (Hrun : run es initial = Some pg) :
  (is_Some (showing pg) ↔ scroll_locked pg)
  ∧ (showing pg = None →
       body_overflow (document pg) = body_overflow (document initial)
       ∧ keydown_listeners (document pg) = [])
  ∧ (is_Some (showing pg) →
       ∃ l, panel_listener pg = Some l ∧ keydown_listeners (document pg) = [l])
  ∧ (∀ idx r h,
       hooks pg = Some h → comparisonMode h = false →
       REGISTRY_DATA !! idx = Some r →
       ∃ pg', dispatch (RowClick idx) pg = Some (pg', [])
              ∧ showing pg' = Some r ∧ scroll_locked pg')
  ∧ (∀ e,
       e ∈ [ClosePanel; BackdropClick; KeyDown Body "Escape";
            KeyDown Backdrop "Enter"; Unmount] →
       is_Some (showing pg) →
       ∃ pg', dispatch e pg = Some (pg', [])
              ∧ showing pg' = None ∧ ¬ scroll_locked pg'
              ∧ body_overflow (document pg')
                = body_overflow (document initial)
              ∧ keydown_listeners (document pg') = []).
Proof.
  pose proof (run_reachable_panel _ _ Hrun) as Hok.
  split_and!.
  - unfold panel_ok, scroll_locked in *.
    destruct (showing pg) as [r|].
    + destruct Hok as (l & _ & _ & ->). split; [done|by eexists].
    + destruct Hok as (_ & _ & ->). split; [by intros []|done].
  - intros Hnone. by apply panel_ok_closed.
  - intros [r Hr]. unfold panel_ok in Hok. rewrite Hr in Hok.
    destruct Hok as (l & ? & ? & _). eauto.
  - intros idx r h Hh Hmode Hr.
    assert (dispatch (RowClick idx) pg
            = Some (commit h (set_selectedRecord (Some r) h) pg, [])) as Hd.
    { unfold dispatch. rewrite Hh. cbn. rewrite Hr. cbn.
      unfold onRowClick. by rewrite Hmode. }
    eexists. split; [exact Hd|].
    assert (showing (commit h (set_selectedRecord (Some r) h) pg) = Some r)
      as Hshow.
    { unfold showing. by rewrite hooks_commit. }
    split; [done|].
    pose proof (dispatch_panel_ok _ _ _ _ Hok Hd) as Hok'.
    unfold panel_ok in Hok'. rewrite Hshow in Hok'.
    by destruct Hok' as (l & _ & _ & ?).
  - intros e He [r Hr].
    assert (∃ pg', dispatch e pg = Some (pg', []) ∧ showing pg' = None)
      as (pg' & Hd & Hnone).
    { unfold showing in Hr. destruct (hooks pg) as [h|] eqn:Hh; [|done].
      cbn in Hr.
      assert (caseReviewPanelRendered h = true) as Hpanel.
      { unfold caseReviewPanelRendered. rewrite Hr.
        by apply bool_decide_eq_true_2. }
      unfold panel_ok, showing in Hok. rewrite Hh in Hok. cbn in Hok.
      rewrite Hr in Hok. destruct Hok as (l & Hl & Hls & _).
      unfold dispatch. rewrite Hh.
      repeat (apply elem_of_cons in He as [->|He]);
        [..|by apply elem_of_nil in He]; cbn.
      - rewrite Hpanel. cbn. eexists. split; [reflexivity|].
        unfold showing. by rewrite hooks_commit.
      - rewrite Hpanel. cbn. eexists. split; [reflexivity|].
        unfold showing. by rewrite hooks_commit.
      - unfold mbind, Handler_bind. cbn. rewrite fire_handleKey, Hls.
        rewrite bool_decide_eq_true_2 by done. cbn.
        eexists. split; [reflexivity|].
        unfold showing. by rewrite hooks_commit.
      - rewrite Hpanel. cbn. unfold mbind, Handler_bind, onBackdropKeyDown.
        rewrite bool_decide_eq_true_2 by (by left). cbn.
        rewrite fire_handleKey.
        rewrite bool_decide_eq_false_2 by (by intros [? _]). cbn.
        eexists. split; [reflexivity|].
        unfold showing. by rewrite hooks_commit.
      - eexists. split; [reflexivity|].
        unfold showing, effect_cleanup. cbn. by rewrite Hl. }
    exists pg'. split; [done|]. split; [done|].
    apply panel_ok_closed; [|done]. by eapply dispatch_panel_ok.
Qed.

(** *** Selecting rows one after the other *)

Lemma select_many (idxs : list nat) (rs : list ImplantRecord) :
  Forall2 (λ i r, REGISTRY_DATA !! i = Some r) idxs rs →
  ∀ pg h,
    hooks pg = Some h → comparisonMode h = true →
    NoDup (selectedIds h ++ (id <$> rs)) →
    length (selectedIds h ++ (id <$> rs)) ≤ 3 →
    run (RowClick <$> idxs) pg
    = Some (with_hooks
              (Some (set_selectedIds (selectedIds h ++ (id <$> rs)) h)) pg).
Proof.
  induction 1 as [|i r idxs rs Hi _ IH]; intros pg h Hh Hmode Hnd Hlen; cbn.
  - rewrite app_nil_r. destruct pg, h; cbn in *. by subst.
  - cbn in Hnd, Hlen. rewrite length_app in Hlen. cbn in Hlen.
    assert (id r ∉ selectedIds h) as Hnew.
    { apply NoDup_app in Hnd as (_ & Hdisj & _).
      intros Hin. apply (Hdisj _ Hin). by left. }
    unfold dispatch. rewrite Hh. cbn. rewrite Hi. cbn.
    unfold onRowClick, toggleSelection.
    rewrite Hmode, bool_decide_eq_false_2, bool_decide_eq_false_2
      by (done || lia).
    cbn. rewrite commit_dashboard by done.
    rewrite (IH _ (set_selectedIds (selectedIds h ++ [id r]) h)); cbn.
    + by rewrite <-app_assoc.
    + done.
    + done.
    + by rewrite <-app_assoc.
    + rewrite <-app_assoc, length_app. cbn. lia.
Qed.

Lemma rows_distinct_ids (idxs : list nat) (rs : list ImplantRecord) :
  Forall2 (λ i r, REGISTRY_DATA !! i = Some r) idxs rs →
  NoDup idxs → NoDup (id <$> rs).
Proof.
  intros Hrows Hnd. apply NoDup_alt. intros a b x Ha Hb.
  apply list_lookup_fmap_Some in Ha as (ra & -> & Ha).
  apply list_lookup_fmap_Some in Hb as (rb & Heq & Hb).
  destruct (Forall2_lookup_r _ _ _ _ _ Hrows Ha) as (ia & Hia & Hra).
  destruct (Forall2_lookup_r _ _ _ _ _ Hrows Hb) as (ib & Hib & Hrb).
  assert (ia = ib) as ->.
  { eapply NoDup_lookup; [exact ids_unique|..]; rewrite list_lookup_fmap.
    - by rewrite Hra.
    - rewrite Hrb. cbn. by rewrite Heq. }
  by eapply NoDup_lookup.
Qed.

Lemma selectedRecords_of_rows (idxs : list nat) (rs : list ImplantRecord)
    (h : Hooks) :
  Forall2 (λ i r, REGISTRY_DATA !! i = Some r) idxs rs →
  NoDup (id <$> rs) → selectedIds h = id <$> rs →
  selectedRecords h ≡ₚ rs.
Proof.
  intros Hrows Hnd Hids.
  assert (∀ r, r ∈ rs → r ∈ REGISTRY_DATA) as Hreg.
  { intros r [a Ha]%list_elem_of_lookup_1.
    destruct (Forall2_lookup_r _ _ _ _ _ Hrows Ha) as (i & _ & Hi).
    by eapply list_elem_of_lookup_2. }
  apply NoDup_Permutation.
  - apply NoDup_filter, registry_NoDup.
  - by eapply NoDup_fmap_1.
  - intros x. unfold selectedRecords. rewrite list_elem_of_filter, Hids. split.
    + intros [(r & Heq & Hr)%list_elem_of_fmap Hx].
      by rewrite (id_inj_registry x r Hx (Hreg r Hr) Heq).
    + intros Hx. split; [by apply list_elem_of_fmap_2|by apply Hreg].
Qed.

(** C1, as the code has it: after switching the mode on, clicking two or
    three distinct rows and activating Compare Selected, the comparison
    table has the attribute-label column and one column per selected
    record, and the record columns are in registry order, whatever the
    order of the clicks. *)
Theorem comparison_columns (getImplantDuration : string → string)
    (idxs : list nat) (rs : list ImplantRecord)
    (Hrows : Forall2 (λ i r, REGISTRY_DATA !! i = Some r) idxs rs)
    (Hdistinct : NoDup idxs) (Hcount : 2 ≤ length rs ≤ 3) :
  ∃ pg h table,
    run (SwitchChange true :: (RowClick <$> idxs) ++ [CompareSelected]) initial
    = Some pg
    ∧ hooks pg = Some h ∧ selectedIds h = id <$> rs
    ∧ comparisonTable REGISTRY_DATA getImplantDuration h = Some table
    ∧ header table = "Attribute" :: (patientId <$> selectedRecords h)
    ∧ body table
      = (λ '(label, key),
           (label, displayVal getImplantDuration key <$> selectedRecords h))
        <$> attribute_rows
    ∧ length (header table) = 1 + length rs
    ∧ selectedRecords h ≡ₚ rs
    ∧ selectedRecords h `sublist_of` REGISTRY_DATA.
Proof.
  pose proof (rows_distinct_ids _ _ Hrows Hdistinct) as Hnd.
  set (on := set_comparisonMode true initial_hooks).
  set (h := set_showComparison true (set_selectedIds (id <$> rs) on)).
  assert (selectedRecords h ≡ₚ rs) as Hperm.
  { by eapply selectedRecords_of_rows. }
  assert (comparisonPanelRendered h = true) as Hshown.
  { unfold comparisonPanelRendered. cbn.
    apply bool_decide_eq_true_2. rewrite Hperm. lia. }
  exists (with_hooks (Some h) initial), h.
  eexists. split_and!.
  - assert (dispatch (SwitchChange true) initial
            = Some (with_hooks (Some on) initial, [])) as Hon by reflexivity.
    cbn [run]. rewrite Hon. cbn [mbind option_bind].
    rewrite run_snoc.
    rewrite (select_many _ _ Hrows _ on); cbn;
      [|done|done|done|rewrite length_fmap; lia].
    unfold dispatch, compareButtonRendered. cbn.
    by rewrite bool_decide_eq_true_2 by (rewrite length_fmap; lia).
  - done.
  - done.
  - unfold comparisonTable. by rewrite Hshown.
  - done.
  - done.
  - cbn. by rewrite length_fmap, Hperm.
  - done.
  - apply sublist_filter.
Qed.

End DashboardFacts.

(** ** The duration formatter *)

Section DurationFacts.
Import Duration.
Local Open Scope Z_scope.

Lemma string_length_app (a b : string) :
  String.length (a +:+ b) = (String.length a + String.length b)%nat.
Proof.
  induction a as [|c a IH]; [done|].
  change (S (String.length (a +:+ b)) = S (String.length a + String.length b)).
  by rewrite IH.
Qed.

Lemma render_not_placeholder (l : Label) :
  l ≠ Placeholder → render l ≠ render Placeholder.
Proof.
  intros Hl Heq. apply (f_equal String.length) in Heq.
  destruct l as [|n|n|t]; [done|..]; cbn in Heq;
    rewrite ?string_length_app in Heq; cbn in Heq; lia.
Qed.

Lemma label_of_past (month_threshold year_threshold elapsed : Z) :
  0 < month_threshold → 0 < year_threshold → 0 ≤ elapsed →
  ∃ n, 0 ≤ n
       ∧ (label_of month_threshold year_threshold elapsed = Days n
          ∨ label_of month_threshold year_threshold elapsed = Months n
          ∨ label_of month_threshold year_threshold elapsed = Years n).
Proof.
  intros Hm Hy He. unfold label_of. repeat case_bool_decide.
  - exists elapsed. auto.
  - exists (elapsed `div` month_threshold). split; [|auto].
    apply Z.div_pos; lia.
  - exists ((elapsed * 10) `div` year_threshold). split; [|auto].
    apply Z.div_pos; lia.
Qed.

(** C9: for a missing date, or one the host cannot parse, the formatter
    returns the placeholder dash (never [Invalid Date]); for every date
    that parses and is not in the future it returns a label in days,
    months or years, which is not the placeholder. *)
Theorem duration_degrades (parse : string → option Z)
    (now month_threshold year_threshold : Z) (surgeryDate : option string)
    (Hthresholds : 0 < month_threshold ∧ 0 < year_threshold) :
  (surgeryDate = None ∨ (∃ s, surgeryDate = Some s ∧ parse s = None) →
     getImplantDuration parse now month_threshold year_threshold surgeryDate
     = "—"
     ∧ getImplantDuration parse now month_threshold year_threshold surgeryDate
       ≠ "Invalid Date")
  ∧ (∀ s day, surgeryDate = Some s → parse s = Some day → day ≤ now →
       getImplantDuration parse now month_threshold year_threshold surgeryDate
       ≠ "—"
       ∧ ∃ n, 0 ≤ n
              ∧ getImplantDuration parse now month_threshold year_threshold
                  surgeryDate
                ∈ [render (Days n); render (Months n); render (Years n)]).
Proof.
  destruct Hthresholds as [Hm Hy]. split.
  - intros [->|(s & -> & Hs)]; cbn; [done|]. by rewrite Hs.
  - intros s day -> Hs Hpast. cbn. rewrite Hs.
    destruct (label_of_past month_threshold year_threshold (now - day))
      as (n & Hn & Hlabel); [lia..|].
    split.
    + apply render_not_placeholder.
      by destruct Hlabel as [->|[->| ->]].
    + exists n. split; [done|].
      destruct Hlabel as [->|[->| ->]]; set_solver.
Qed.

Lemma duration_degrades_witness :
  getImplantDuration iso_date 20000 30 365 (Some "15/03/2021") = "—"
  ∧ getImplantDuration iso_date 20000 30 365 (Some "2021-03-15") ≠ "—".
Proof.
  assert (0 < 30 ∧ 0 < 365) as Hth by lia.
  split.
  - apply (duration_degrades iso_date 20000 30 365 (Some "15/03/2021") Hth).
    right. exists "15/03/2021". split; [done|by vm_compute].
  - apply (proj2 (duration_degrades iso_date 20000 30 365
                    (Some "2021-03-15") Hth) "2021-03-15" 18701);
      [done|by vm_compute|lia].
Defined.

End DurationFacts.

(** ** The statements above on the sample registry *)

Lemma sample_ids_unique : NoDup (id <$> sample_registry).
Proof. by_compute. Defined.

Lemma fourth_selection_rejected_witness :
  run sample_registry [SwitchChange true; RowClick 0; RowClick 1; RowClick 2]
    initial
  = Some (sample_page [SwitchChange true; RowClick 0; RowClick 1; RowClick 2])
  ∧ dispatch sample_registry (RowClick 3)
      (sample_page [SwitchChange true; RowClick 0; RowClick 1; RowClick 2])
    = Some (sample_page [SwitchChange true; RowClick 0; RowClick 1; RowClick 2],
            [max_selection_notice]).
Proof.
  split; [by vm_compute|].
  edestruct (fourth_selection_rejected sample_registry
               [SwitchChange true; RowClick 0; RowClick 1; RowClick 2]
               (sample_page [SwitchChange true; RowClick 0; RowClick 1; RowClick 2])
               (sample_hooks [SwitchChange true; RowClick 0; RowClick 1; RowClick 2])
               3 (sample_record 4 "Scheduled" stable Low))
    as (_ & Hclick & _).
  - by vm_compute.
  - by vm_compute.
  - by vm_compute.
  - by vm_compute.
  - by_compute.
  - exact Hclick.
Defined.

Lemma selection_invariant_witness :
  run sample_registry [SwitchChange true; RowClick 4; RowClick 1] initial
  = Some (sample_page [SwitchChange true; RowClick 4; RowClick 1])
  ∧ selection_ok sample_registry
      (sample_hooks [SwitchChange true; RowClick 4; RowClick 1]).
Proof.
  split; [by vm_compute|].
  edestruct (selection_invariant sample_registry
               [SwitchChange true; RowClick 4; RowClick 1]
               (sample_page [SwitchChange true; RowClick 4; RowClick 1])
               (sample_hooks [SwitchChange true; RowClick 4; RowClick 1]))
    as [Hok _].
  - by vm_compute.
  - by vm_compute.
  - exact Hok.
Defined.

Lemma mode_off_clears_witness :
  run sample_registry [SwitchChange true; RowClick 0; SwitchChange false] initial
  = Some (sample_page [SwitchChange true; RowClick 0; SwitchChange false])
  ∧ selectedIds (sample_hooks [SwitchChange true; RowClick 0; SwitchChange false])
    = []
  ∧ showComparison
      (sample_hooks [SwitchChange true; RowClick 0; SwitchChange false])
    = false.
Proof.
  split; [by vm_compute|].
  edestruct (mode_off_clears sample_registry
               [SwitchChange true; RowClick 0; SwitchChange false]
               (sample_page [SwitchChange true; RowClick 0; SwitchChange false])
               initial
               (sample_hooks [SwitchChange true; RowClick 0; SwitchChange false])
               initial_hooks)
    as (_ & Hoff & _).
  - done.
  - by vm_compute.
  - by vm_compute.
  - destruct Hoff as (Hnil & Hflag & _); [by vm_compute|].
    split; [exact Hnil|exact Hflag].
Defined.

Lemma deselect_removes_witness :
  run sample_registry compare_three initial = Some (sample_page compare_three)
  ∧ hooks (sample_page compare_three) = Some (sample_hooks compare_three)
  ∧ selectedIds (sample_hooks compare_three) = ["IMP-1"; "IMP-2"; "IMP-3"]
  ∧ ∃ pg' h',
      dispatch sample_registry (RowClick 1) (sample_page compare_three)
      = Some (pg', [])
      ∧ dispatch sample_registry (CheckboxChange 1) (sample_page compare_three)
        = Some (pg', [])
      ∧ dispatch sample_registry (KeyDown (Row 1) " ")
          (sample_page compare_three)
        = Some (pg', [])
      ∧ hooks pg' = Some h'
      ∧ document pg' = document (sample_page compare_three)
      ∧ selectedIds h' = ["IMP-1"; "IMP-3"]
      ∧ phase sample_registry h' = comparing.
Proof.
  split; [by vm_compute|]. split; [by vm_compute|]. split; [by vm_compute|].
  edestruct (deselect_removes sample_registry sample_ids_unique
               (sample_page compare_three) (sample_hooks compare_three)
               1 (sample_record 2 "Overdue" review Moderate))
    as (pg' & h' & _ & _ & Hd & Hbox & _ & Hspace & Hh' & _ & _ & _ & _ & _
        & Hdoc & _ & _ & Habc).
  - by vm_compute.
  - by vm_compute.
  - by vm_compute.
  - by_compute.
  - exists pg', h'. split; [exact Hd|]. split; [exact Hbox|].
    split; [exact Hspace|]. split; [exact Hh'|]. split; [exact Hdoc|].
    apply (Habc (sample_record 1 "Scheduled" stable Low)
                (sample_record 3 "Completed" attention High)).
    + by vm_compute.
    + by_compute.
    + by_compute.
    + by_compute.
    + by vm_compute.
Defined.

Lemma close_comparison_keeps_selection_witness :
  run sample_registry compare_three initial = Some (sample_page compare_three)
  ∧ comparisonPanelRendered sample_registry (sample_hooks compare_three) = true
  ∧ ∃ pg' h',
      dispatch sample_registry CloseComparison (sample_page compare_three)
      = Some (pg', [])
      ∧ hooks pg' = Some h'
      ∧ comparisonPanelRendered sample_registry h' = false
      ∧ comparisonMode h' = true
      ∧ selectedIds h' = selectedIds (sample_hooks compare_three)
      ∧ selectedRecord h' = selectedRecord (sample_hooks compare_three)
      ∧ document pg' = document (sample_page compare_three)
      ∧ dispatch sample_registry CompareSelected pg'
        = Some (sample_page compare_three, []).
Proof.
  split; [by vm_compute|]. split; [by vm_compute|].
  apply (close_comparison_keeps_selection sample_registry sample_ids_unique
           (sample_page compare_three) (sample_hooks compare_three)).
  - by vm_compute.
  - by vm_compute.
Defined.

Lemma comparison_needs_ready_witness :
  run sample_registry compare_three initial = Some (sample_page compare_three)
  ∧ comparisonPanelRendered sample_registry (sample_hooks compare_three) = true
  ∧ ∃ es1 es2 pg1 h1,
      compare_three = es1 ++ CompareSelected :: es2
      ∧ run sample_registry es1 initial = Some pg1 ∧ hooks pg1 = Some h1
      ∧ phase sample_registry h1 = ready.
Proof.
  split; [by vm_compute|]. split; [by vm_compute|].
  edestruct (comparison_needs_ready sample_registry sample_ids_unique
               compare_three (sample_page compare_three)
               (sample_hooks compare_three))
    as (_ & _ & Hshown).
  - by vm_compute.
  - by vm_compute.
  - apply Hshown. by vm_compute.
Defined.

Lemma scroll_lock_tracks_panel_witness :
  run sample_registry [RowClick 0] initial = Some (sample_page [RowClick 0])
  ∧ (is_Some (showing (sample_page [RowClick 0]))
     ↔ scroll_locked (sample_page [RowClick 0])).
Proof.
  split; [by vm_compute|].
  apply (scroll_lock_tracks_panel sample_registry [RowClick 0]
           (sample_page [RowClick 0])).
  by vm_compute.
Defined.

Lemma comparison_columns_witness :
  ∃ pg h table,
    run sample_registry
      (SwitchChange true :: (RowClick <$> [2; 0]) ++ [CompareSelected]) initial
    = Some pg
    ∧ hooks pg = Some h
    ∧ selectedIds h
      = id <$> [sample_record 3 "Completed" attention High;
                sample_record 1 "Scheduled" stable Low]
    ∧ comparisonTable sample_registry sample_duration h = Some table
    ∧ header table
      = "Attribute" :: (patientId <$> selectedRecords sample_registry h)
    ∧ body table
      = (λ '(label, key),
           (label,
            displayVal sample_duration key <$> selectedRecords sample_registry h))
        <$> attribute_rows
    ∧ length (header table) = 1 + 2
    ∧ selectedRecords sample_registry h
      ≡ₚ [sample_record 3 "Completed" attention High;
          sample_record 1 "Scheduled" stable Low]
    ∧ selectedRecords sample_registry h `sublist_of` sample_registry.
Proof.
  apply (comparison_columns sample_registry sample_ids_unique sample_duration
           [2; 0]
           [sample_record 3 "Completed" attention High;
            sample_record 1 "Scheduled" stable Low]).
  - repeat constructor.
  - by_compute.
  - cbn. lia.
Defined.

(** C1 as stated fails: rows clicked against registry order are compared
    in registry order. *)
Lemma comparison_columns_selection_order_fails :
  run sample_registry compare_reversed initial
  = Some (sample_page compare_reversed)
  ∧ selectedIds (sample_hooks compare_reversed) = ["IMP-3"; "IMP-1"]
  ∧ header <$> comparisonTable sample_registry sample_duration
                 (sample_hooks compare_reversed)
    = Some ["Attribute"; "PT-1"; "PT-3"]
  ∧ header <$> comparisonTable sample_registry sample_duration
                 (sample_hooks compare_reversed)
    ≠ Some ["Attribute"; "PT-3"; "PT-1"].
Proof.
  split_and!; [by vm_compute..|].
  intros Heq. by vm_compute in Heq.
Qed.

(** C3 as stated fails: deselecting the second of three compared records
    leaves the comparison table shown; the state is not collecting. *)
Lemma deselect_stays_comparing :
  run sample_registry (compare_three ++ [RowClick 1]) initial
  = Some (sample_page (compare_three ++ [RowClick 1]))
  ∧ selectedIds (sample_hooks compare_three) = ["IMP-1"; "IMP-2"; "IMP-3"]
  ∧ phase sample_registry (sample_hooks compare_three) = comparing
  ∧ selectedIds (sample_hooks (compare_three ++ [RowClick 1]))
    = ["IMP-1"; "IMP-3"]
  ∧ comparisonPanelRendered sample_registry
      (sample_hooks (compare_three ++ [RowClick 1])) = true
  ∧ phase sample_registry (sample_hooks (compare_three ++ [RowClick 1]))
    ≠ collecting.
Proof.
  split_and!; [by vm_compute..|].
  intros Heq. by vm_compute in Heq.
Qed.

(** The table flag outlives a selection that drops below two: after
    comparing two records, deselecting one hides the table, and selecting
    another record shows it again without Compare Selected. *)
Example table_returns_on_reselect :
  phase sample_registry
    (sample_hooks [SwitchChange true; RowClick 0; RowClick 1; CompareSelected;
                   RowClick 1])
  = collecting
  ∧ phase sample_registry
      (sample_hooks [SwitchChange true; RowClick 0; RowClick 1; CompareSelected;
                     RowClick 1; RowClick 2])
    = comparing.
Proof. split; by vm_compute. Qed.

(** * Further properties *)

(** ** Badges inside the tables *)

Section RenderFacts.
Import Badge.

Lemma status_map_proto_disjoint (status : string) :
  status ∈ Object_prototype_keys → status_map !! status = None.
Proof.
  unfold Object_prototype_keys. intros Hin.
  repeat (apply elem_of_cons in Hin as [->|Hin]; [reflexivity|]).
  by apply elem_of_nil in Hin.
Qed.

(** X1: the status badge never throws and always shows the status text; it
    is left without a background and without a text colour exactly for the
    member names of [Object.prototype]. *)
Theorem status_badge_total (status : string) :
  ∃ span,
    StatusBadge status = Returns span
    ∧ content span = Some status
    ∧ (backgroundColor span = None ↔ status ∈ Object_prototype_keys)
    ∧ (textColor span = None ↔ status ∈ Object_prototype_keys).
Proof.
  unfold StatusBadge.
  destruct (js_get status_map status) as [style| |] eqn:Hget.
  - eexists. split; [reflexivity|]. split; [done|]. cbn.
    assert (status ∉ Object_prototype_keys) as Hout.
    { intros Hin. unfold js_get in Hget.
      rewrite (status_map_proto_disjoint _ Hin) in Hget. by case_decide. }
    split; (split; [done|by intros ?%Hout]).
  - eexists. split; [reflexivity|]. split; [done|]. cbn.
    assert (status ∈ Object_prototype_keys) as Hin.
    { unfold js_get in Hget.
      destruct (status_map !! status); [done|]. by case_decide. }
    split; (split; [done|by intros _]).
  - eexists. split; [reflexivity|]. split; [done|]. cbn.
    assert (status ∉ Object_prototype_keys) as Hout.
    { intros Hin. unfold js_get in Hget.
      destruct (status_map !! status); [done|]. by case_decide. }
    split; (split; [done|by intros ?%Hout]).
Qed.

End RenderFacts.

(** ** The registry table, the controls and the comparison table *)

Section TableFacts.
Context (REGISTRY_DATA : list ImplantRecord).
Context (getImplantDuration : string → string).

Local Abbreviation run := (run REGISTRY_DATA).
Local Abbreviation dispatch := (dispatch REGISTRY_DATA).
Local Abbreviation selectedRecords := (selectedRecords REGISTRY_DATA).
Local Abbreviation registryRows :=
  (registryRows REGISTRY_DATA getImplantDuration).
Local Abbreviation registryRow := (registryRow REGISTRY_DATA getImplantDuration).
Local Abbreviation comparisonTable :=
  (comparisonTable REGISTRY_DATA getImplantDuration).
Local Abbreviation comparisonPanelRendered :=
  (comparisonPanelRendered REGISTRY_DATA).
Local Abbreviation phase := (phase REGISTRY_DATA).

(** X2: in either mode the registry table has one row per registry record,
    in registry order, every row has exactly as many cells as the header
    (eight, plus the checkbox column in comparison mode), and the last row
    is the only one without a bottom border. *)
Theorem registry_table_aligned (h : Hooks) :
  rowKey <$> registryRows h = id <$> REGISTRY_DATA
  ∧ length (registryHeader h) = (if comparisonMode h then 9 else 8)
  ∧ Forall (λ row, length (cells row) = length (registryHeader h))
      (registryRows h)
  ∧ ∀ idx row, registryRows h !! idx = Some row →
      (borderBottom row = false ↔ S idx = length REGISTRY_DATA).
Proof.
  split_and!.
  - unfold registryRows. rewrite fmap_imap. apply imap_const.
  - unfold registryHeader. by destruct (comparisonMode h).
  - apply Forall_lookup. intros idx row Hrow.
    unfold registryRows in Hrow. rewrite list_lookup_imap in Hrow.
    destruct (REGISTRY_DATA !! idx) as [r|]; [|done]. injection Hrow as <-.
    unfold registryHeader. cbn. by destruct (comparisonMode h).
  - intros idx row Hrow.
    unfold registryRows in Hrow. rewrite list_lookup_imap in Hrow.
    destruct (REGISTRY_DATA !! idx) as [r|] eqn:Hr; [|done].
    injection Hrow as <-. cbn.
    apply lookup_lt_Some in Hr. rewrite bool_decide_eq_false. lia.
Qed.

Lemma highlighted_rows_count (h : Hooks) (f : nat → nat) (l : list ImplantRecord) :
  length (filter (λ row, highlighted row = true)
            (imap (λ i, registryRow h (f i)) l))
  = length (filter (λ r, id r ∈ selectedIds h) l).
Proof.
  revert f. induction l as [|r l IH]; intros f; [done|].
  rewrite imap_cons, !filter_cons. cbn [highlighted registryRow].
  specialize (IH (f ∘ S)).
  destruct (decide (id r ∈ selectedIds h)) as [Hin|Hout].
  - rewrite decide_True by (by apply bool_decide_eq_true_2).
    cbn. f_equal. exact IH.
  - rewrite decide_False by (by rewrite bool_decide_eq_false_2).
    exact IH.
Qed.

Lemma comparisonTable_shape (h : Hooks) (table : ComparisonTable) :
  comparisonTable h = Some table →
  comparisonPanelRendered h = true
  ∧ header table = "Attribute" :: (patientId <$> selectedRecords h)
  ∧ (λ row, length row.2) <$> body table
    = replicate 6 (length (selectedRecords h)).
Proof.
  unfold comparisonTable.
  destruct (comparisonPanelRendered h); [|done]. intros [= <-].
  split; [done|]. split; [done|]. cbn. by rewrite !length_fmap.
Qed.

Hypothesis ids_unique : NoDup (id <$> REGISTRY_DATA).

(** X4: along every run the number of highlighted rows of the registry
    table is the number of selected ids, which is the number the counter
    under the table reports, and it never exceeds three. *)
Theorem highlights_match_counter (es : list Event) (pg : Page) (h : Hooks)
    (Hrun : run es initial = Some pg) (Hh : hooks pg = Some h) :
  length (filter (λ row, highlighted row = true) (registryRows h))
  = length (selectedIds h)
  ∧ length (selectedIds h) ≤ 3
  ∧ ∀ c, comparisonControls h = Some c →
      counter c
      = pretty (length (filter (λ row, highlighted row = true) (registryRows h)))
        +:+ " of 3 cases selected".
Proof.
  pose proof (run_reachable_selection _ _ _ _ Hrun Hh) as Hok.
  assert (length (filter (λ row, highlighted row = true) (registryRows h))
          = length (selectedIds h)) as Hcount.
  { etrans; [exact (highlighted_rows_count h (λ i, i) REGISTRY_DATA)|].
    by apply (selectedRecords_count REGISTRY_DATA). }
  split; [done|]. split; [apply Hok|].
  intros c. unfold comparisonControls.
  destruct (comparisonMode h); [|done]. intros [= <-]. cbn.
  by rewrite Hcount.
Qed.

(** X5: whenever the comparison table is shown along a run, it has six
    attribute rows, every row has one cell under each record column, and
    there is one record column per selected id: two or three. *)
Theorem comparison_table_aligned (es : list Event) (pg : Page) (h : Hooks)
    (table : ComparisonTable)
    (Hrun : run es initial = Some pg) (Hh : hooks pg = Some h)
    (Htable : comparisonTable h = Some table) :
  fst <$> body table = fst <$> attribute_rows
  ∧ Forall (λ row, S (length row.2) = length (header table)) (body table)
  ∧ length (header table) = S (length (selectedIds h))
  ∧ 3 ≤ length (header table) ≤ 4.
Proof.
  pose proof (run_reachable_selection _ _ _ _ Hrun Hh) as Hok.
  pose proof (selectedRecords_count REGISTRY_DATA ids_unique h Hok) as Hcount.
  destruct (comparisonTable_shape _ _ Htable) as (Hshown & Hheader & Hbody).
  apply (panel_needs_two REGISTRY_DATA ids_unique) in Hshown
    as (_ & _ & _ & Htwo).
  assert (length (header table) = S (length (selectedIds h))) as Hlen.
  { rewrite Hheader. cbn. by rewrite length_fmap, Hcount. }
  split_and!.
  - unfold comparisonTable in Htable.
    destruct (comparisonPanelRendered h); [|done].
    by injection Htable as <-.
  - apply Forall_lookup. intros i row Hrow.
    assert (((λ row, length row.2) <$> body table) !! i = Some (length row.2))
      as Hi by (by rewrite list_lookup_fmap, Hrow).
    rewrite Hbody in Hi. apply lookup_replicate in Hi as [-> _].
    by rewrite Hlen, Hcount.
  - done.
  - destruct Hok as (_ & Hmax & _). lia.
  - destruct Hok as (_ & Hmax & _). lia.
Qed.

(** X6: the order of the selection is not observable: two hook states that
    differ only in the order of their selected ids render the same
    registry rows, the same controls and the same comparison table, and
    are in the same state of the machine. *)
Theorem selection_order_unobservable (h1 h2 : Hooks)
    (Hperm : selectedIds h1 ≡ₚ selectedIds h2)
    (Hmode : comparisonMode h1 = comparisonMode h2)
    (Hflag : showComparison h1 = showComparison h2) :
  selectedRecords h1 = selectedRecords h2
  ∧ registryRows h1 = registryRows h2
  ∧ comparisonControls h1 = comparisonControls h2
  ∧ comparisonTable h1 = comparisonTable h2
  ∧ phase h1 = phase h2.
Proof.
  assert (selectedRecords h1 = selectedRecords h2) as Hrecs.
  { apply list_filter_iff. intros r. by rewrite Hperm. }
  assert (length (selectedIds h1) = length (selectedIds h2)) as Hlen.
  { by apply Permutation_length. }
  assert (comparisonPanelRendered h1 = comparisonPanelRendered h2) as Hshown.
  { unfold comparisonPanelRendered.
    by rewrite Hmode, Hflag, Hrecs. }
  split_and!.
  - done.
  - unfold registryRows. apply imap_ext. intros i r _.
    unfold registryRow. rewrite Hmode.
    by rewrite (bool_decide_ext (id r ∈ selectedIds h1) (id r ∈ selectedIds h2))
      by (by rewrite Hperm).
  - unfold comparisonControls. by rewrite Hmode, Hlen.
  - unfold comparisonTable.
    by rewrite Hshown, Hrecs.
  - unfold phase.
    by rewrite Hmode, Hshown, Hlen.
Qed.

Lemma filter_out_appended (l : list string) (i : string) :
  i ∉ l → filter (λ x, x ≠ i) (l ++ [i]) = l.
Proof.
  intros Hout. rewrite filter_app, filter_cons_False, filter_nil, app_nil_r
    by (by intros ?).
  induction l as [|x l IH]; [done|].
  apply not_elem_of_cons in Hout as [Hne Hout].
  rewrite filter_cons_True by done. by rewrite IH.
Qed.

(** X7: in comparison mode, clicking the row of an unselected record while
    fewer than three are selected appends its id to the selection, raises
    no alert and changes nothing else; clicking the row again gives back
    exactly the page before the first click. *)
Theorem toggle_new_round_trip (pg : Page) (h : Hooks) (idx : nat)
    (r : ImplantRecord)
    (Hh : hooks pg = Some h) (Hmode : comparisonMode h = true)
    (Hr : REGISTRY_DATA !! idx = Some r)
    (Hnew : id r ∉ selectedIds h) (Hroom : length (selectedIds h) < 3) :
  dispatch (RowClick idx) pg
  = Some (with_hooks (Some (set_selectedIds (selectedIds h ++ [id r]) h)) pg, [])
  ∧ dispatch (CheckboxChange idx) pg = dispatch (RowClick idx) pg
  ∧ dispatch (RowClick idx)
      (with_hooks (Some (set_selectedIds (selectedIds h ++ [id r]) h)) pg)
    = Some (pg, []).
Proof.
  assert (dispatch (RowClick idx) pg
          = Some (with_hooks
                    (Some (set_selectedIds (selectedIds h ++ [id r]) h)) pg, []))
    as Hclick.
  { unfold dispatch. rewrite Hh. cbn. rewrite Hr. cbn.
    unfold onRowClick, toggleSelection.
    rewrite Hmode, !bool_decide_eq_false_2 by (done || lia). cbn.
    by rewrite commit_dashboard. }
  split_and!.
  - done.
  - rewrite Hclick. unfold dispatch. rewrite Hh. cbn. rewrite Hr. cbn.
    unfold checkboxRendered, toggleSelection. rewrite Hmode. cbn.
    rewrite !bool_decide_eq_false_2 by (done || lia). cbn.
    by rewrite commit_dashboard.
  - unfold dispatch. cbn. rewrite Hr. cbn.
    unfold onRowClick, toggleSelection. cbn. rewrite Hmode.
    rewrite bool_decide_eq_true_2 by (apply elem_of_app; right; by left). cbn.
    rewrite commit_dashboard by done. cbn.
    rewrite filter_out_appended by done.
    destruct pg, h; cbn in *. by subst.
Qed.

(** X8: Clear selection, whenever it is rendered, empties the selection and
    lowers the table flag, leaving the mode on and the rest of the page as
    it was: the state is collecting, the counter reads 0, no row is
    highlighted, and neither Clear selection nor Compare Selected is
    rendered any more. *)
Theorem clear_selection_resets (pg : Page) (h : Hooks)
    (Hh : hooks pg = Some h) (Hclear : clearButtonRendered h = true) :
  ∃ pg' h',
    dispatch ClearSelection pg = Some (pg', []) ∧ hooks pg' = Some h'
    ∧ h' = set_showComparison false (set_selectedIds [] h)
    ∧ comparisonMode h' = true
    ∧ document pg' = document pg
    ∧ phase h' = collecting
    ∧ comparisonControls h'
      = Some {| counter := "0 of 3 cases selected";
                compareButton := false; clearButton := false |}
    ∧ Forall (λ row, highlighted row = false) (registryRows h')
    ∧ dispatch ClearSelection pg' = None
    ∧ dispatch CompareSelected pg' = None.
Proof.
  assert (comparisonMode h = true) as Hmode.
  { unfold clearButtonRendered in Hclear. by destruct (comparisonMode h). }
  exists (with_hooks (Some (set_showComparison false (set_selectedIds [] h))) pg),
    (set_showComparison false (set_selectedIds [] h)).
  split.
  { unfold dispatch. rewrite Hh. cbn. rewrite Hclear. cbn.
    unfold mbind, Handler_bind. cbn. by rewrite commit_dashboard. }
  split; [done|]. split_and!; try done.
  - unfold phase, comparisonPanelRendered. cbn. by rewrite Hmode.
  - unfold comparisonControls. cbn. by rewrite Hmode.
  - apply Forall_lookup. intros i row Hrow.
    unfold registryRows in Hrow. rewrite list_lookup_imap in Hrow.
    destruct (REGISTRY_DATA !! i); [|done]. injection Hrow as <-. cbn.
    apply bool_decide_eq_false_2, not_elem_of_nil.
  - unfold dispatch. cbn. unfold clearButtonRendered. cbn. by rewrite Hmode.
  - unfold dispatch. cbn. unfold compareButtonRendered. cbn. by rewrite Hmode.
Qed.


(** X10: no interaction touches both the detail panel and the selection:
    either the shown record, the document and the panel's listener are as
    before, or the mode, the selected ids and the table flag are. *)
Theorem interaction_frame (e : Event) (pg pg' : Page) (h h' : Hooks)
    (al : list string)
    (Hh : hooks pg = Some h) (Hd : dispatch e pg = Some (pg', al))
    (Hh' : hooks pg' = Some h') :
  (selectedRecord h' = selectedRecord h ∧ document pg' = document pg
   ∧ panel_listener pg' = panel_listener pg)
  ∨ (comparisonMode h' = comparisonMode h ∧ selectedIds h' = selectedIds h
     ∧ showComparison h' = showComparison h).
Proof.
  destruct (dispatch_mounted REGISTRY_DATA _ _ _ _ _ Hh Hd)
    as [(_ & -> & _)|(handler & p & _ & _ & Hstep & -> & _)].
  { cbn in Hh'. unfold effect_cleanup in Hh'.
    by destruct (panel_listener (with_hooks None pg)). }
  rewrite hooks_commit in Hh'. injection Hh' as <-.
  inversion Hstep; try (by right); left;
    repeat match goal with
           | Heq : _ = next p |- _ => rewrite <-Heq; clear Heq
           end;
    by rewrite commit_dashboard.
Qed.

Lemma selection_event_step (e : Event) (pg q : Page) (hq : Hooks)
    (al : list string) :
  selection_event e = true → comparisonMode hq = true →
  dispatch e (with_hooks (Some hq) pg) = Some (q, al) →
  ∃ hq', q = with_hooks (Some hq') pg
         ∧ comparisonMode hq' = true
         ∧ selectedRecord hq' = selectedRecord hq.
Proof.
  intros He Hmode Hd.
  destruct (dispatch_mounted REGISTRY_DATA e (with_hooks (Some hq) pg) q hq al
              eq_refl Hd)
    as [(-> & _)|(handler & p & Hhandler & Hp & _ & -> & _)]; [done|].
  assert (comparisonMode (next p) = true
          ∧ selectedRecord (next p) = selectedRecord hq) as [Hmode' Hrec].
  { destruct e as [| idx | idx | | | | | | |]; try done; cbn in Hhandler;
      open_handler; unfold onRowClick, toggleSelection in Hp;
      rewrite ?Hmode in Hp; repeat case_bool_decide;
      injection Hp as <-; by cbn. }
  exists (next p). split; [|done]. by rewrite commit_dashboard.
Qed.

Lemma selection_events_run (es : list Event) (pg q : Page) (hq : Hooks) :
  forallb selection_event es = true → comparisonMode hq = true →
  run es (with_hooks (Some hq) pg) = Some q →
  ∃ hq', q = with_hooks (Some hq') pg
         ∧ comparisonMode hq' = true
         ∧ selectedRecord hq' = selectedRecord hq.
Proof.
  revert hq. induction es as [|e es IH]; intros hq Hes Hmode Hrun.
  - injection Hrun as <-. by exists hq.
  - cbn in Hes. apply andb_true_iff in Hes as [He Hes].
    change (run (e :: es) (with_hooks (Some hq) pg))
      with ('(pg', _) ← dispatch e (with_hooks (Some hq) pg); run es pg')
      in Hrun.
    destruct (dispatch e (with_hooks (Some hq) pg)) as [[q1 al]|] eqn:Hd;
      [|done].
    cbn in Hrun.
    destruct (selection_event_step _ _ _ _ _ He Hmode Hd)
      as (h1 & -> & Hmode1 & Hrec1).
    destruct (IH _ Hes Hmode1 Hrun) as (h2 & -> & Hmode2 & Hrec2).
    exists h2. split; [done|]. split; [done|]. congruence.
Qed.

(** X11: comparison mode leaves no trace: from a page of a run with the
    mode off, switching the mode on, interacting with the rows, the
    checkboxes, Compare Selected, Clear selection and the table's close
    control in any number and order, and switching the mode off again
    gives back exactly the page before. *)
Theorem comparison_mode_leaves_no_trace (es0 es : list Event) (pg q : Page)
    (h : Hooks)
    (Hrun : run es0 initial = Some pg) (Hh : hooks pg = Some h)
    (Hoff : comparisonMode h = false)
    (Hes : forallb selection_event es = true)
    (Hq : run (SwitchChange true :: es) pg = Some q) :
  dispatch (SwitchChange false) q = Some (pg, []).
Proof.
  destruct (run_reachable_mode _ _ _ _ Hrun Hh Hoff) as [Hnil Hflag].
  assert (dispatch (SwitchChange true) pg
          = Some (with_hooks (Some (set_comparisonMode true h)) pg, []))
    as Hon.
  { unfold dispatch. rewrite Hh. cbn.
    unfold onCheckedChange, mbind, Handler_bind. cbn.
    by rewrite commit_dashboard. }
  change (run (SwitchChange true :: es) pg)
    with ('(pg', _) ← dispatch (SwitchChange true) pg; run es pg') in Hq.
  rewrite Hon in Hq. cbn in Hq.
  destruct (selection_events_run es pg q (set_comparisonMode true h) Hes
              eq_refl Hq)
    as (hq & -> & Hmode & Hrec).
  unfold dispatch. cbn. unfold onCheckedChange, mbind, Handler_bind. cbn.
  rewrite commit_dashboard by done. cbn.
  destruct pg, h, hq; cbn in *. by subst.
Qed.

(** X12: along every run, a key pressed outside the rows and the backdrop
    changes nothing, unless it is Escape while a record is shown. *)
Theorem stray_keys_are_idle (es : list Event) (pg : Page) (key : string)
    (Hrun : run es initial = Some pg)
    (Hidle : showing pg = None ∨ key ≠ "Escape") :
  dispatch (KeyDown Body key) pg = Some (pg, []).
Proof.
  pose proof (run_reachable_panel _ _ _ Hrun) as Hok.
  unfold dispatch. destruct (hooks pg) as [h|] eqn:Hh; [|done]. cbn.
  unfold mbind, Handler_bind. cbn. rewrite fire_handleKey.
  rewrite bool_decide_eq_false_2.
  - cbn. by rewrite commit_same.
  - intros [-> Hls]. destruct Hidle as [Hnone|]; [|done].
    unfold panel_ok in Hok. rewrite Hnone in Hok. by destruct Hok as (_ & ? & _).
Qed.

End TableFacts.

(** ** The navigation bar *)

Section NavFacts.
Import Nav.
Context (links : list NavLink).

Local Abbreviation ids := (section_ids links).
Local Abbreviation step := (step links).
Local Abbreviation run := (run links).
Local Abbreviation mount := (mount links).
Local Abbreviation linkViews := (linkViews links).
Local Abbreviation view := (view links).

Lemma callback_same (i : string) (entries : list bool) :
  callback i entries i = i.
Proof. induction entries as [|[] entries IH]; cbn; done. Qed.

Lemma callback_cases (i : string) (entries : list bool) (active : string) :
  callback i entries active
  = if existsb (λ b, b) entries then i else active.
Proof.
  revert active. induction entries as [|[] entries IH]; intros active; cbn.
  - done.
  - apply callback_same.
  - apply IH.
Qed.

Lemma run_unmounted (es : list Event) (s s' : State) :
  mounted s = false → run es s = Some s' → es = [] ∧ s' = s.
Proof.
  intros Hoff. destruct es as [|e es]; cbn.
  - by intros [= <-].
  - unfold step. by rewrite Hoff.
Qed.

(** What one step can do to the active id and to the observers. *)
Lemma step_cases (e : Event) (s s' : State) (scrolled : option string) :
  step e s = Some (s', scrolled) →
  mounted s = true
  ∧ (activeId s' = activeId s ∨ activeId s' ∈ observers s)
  ∧ (mounted s' = true ∧ observers s' = observers s
     ∨ mounted s' = false ∧ e = Unmount).
Proof.
  unfold step. destruct (mounted s); [|done]. intros Hstep.
  split; [done|].
  destruct e as [k entries| |document target|]; cbn in Hstep.
  - destruct (observers s !! k) as [i|] eqn:Hk; [|done].
    injection Hstep as <- <-. cbn. split; [|by left].
    rewrite callback_cases. destruct (existsb _ entries); [right|by left].
    by eapply list_elem_of_lookup_2.
  - injection Hstep as <- <-. cbn. split; by left.
  - case_bool_decide; [|done]. injection Hstep as <- <-. cbn.
    split; by left.
  - injection Hstep as <- <-. cbn. split; [by left|by right].
Qed.

Lemma run_active_id (es : list Event) (s0 s : State) :
  run es s0 = Some s →
  activeId s = activeId s0 ∨ activeId s ∈ observers s0.
Proof.
  revert s0. induction es as [|e es IH]; intros s0; cbn.
  - intros [= <-]. by left.
  - destruct (step e s0) as [[s1 scrolled]|] eqn:Hstep; [|done]. cbn.
    intros Hrun.
    destruct (step_cases _ _ _ _ Hstep) as (_ & Hactive & Hobs).
    destruct Hobs as [[_ Hsame]|[Hoff _]].
    + destruct (IH _ Hrun) as [->|Hin]; [done|]. right. by rewrite <-Hsame.
    + apply run_unmounted in Hrun as [_ ->]; done.
Qed.

(** X13: the active id is always either the initial one, [ids[0] ?? ""],
    or the id of a section that had an element in the document when the
    hook's effect ran. *)
Theorem active_id_observed (document : list string) (es : list Event)
    (s : State)
    (Hrun : run es (mount document) = Some s) :
  activeId s = default "" (head ids)
  ∨ (activeId s ∈ ids ∧ activeId s ∈ document).
Proof.
  destruct (run_active_id _ _ _ Hrun) as [Hinit|Hobs]; [by left|right].
  cbn in Hobs. by apply list_elem_of_filter in Hobs as [? ?].
Qed.

Lemma run_last_report (es : list Event) (s0 s : State) :
  run es s0 = Some s →
  activeId s = default (activeId s0) (last (reports (observers s0) es)).
Proof.
  revert s0. induction es as [|e es IH]; intros s0; cbn [Nav.run reports].
  - by intros [= <-].
  - destruct (step e s0) as [[s1 scrolled]|] eqn:Hstep; [|done]. cbn.
    intros Hrun.
    destruct (step_cases _ _ _ _ Hstep) as (Hon & _ & Hobs).
    destruct Hobs as [[_ Hsame]|[Hoff ->]].
    + rewrite (IH _ Hrun), Hsame. unfold step in Hstep.
      rewrite Hon in Hstep.
      destruct e as [k entries| |document target|]; cbn in Hstep.
      * destruct (observers s0 !! k) as [i|] eqn:Hk; [|done].
        injection Hstep as <- <-. cbn. rewrite callback_cases, last_app.
        destruct (last (reports (observers s0) es)); [done|].
        by destruct (existsb _ entries).
      * by injection Hstep as <- <-.
      * case_bool_decide; [|done]. by injection Hstep as <- <-.
      * by injection Hstep as <- <-.
    + apply run_unmounted in Hrun as [-> ->]; [|done]. cbn.
      unfold step in Hstep. rewrite Hon in Hstep. by injection Hstep as <- <-.
Qed.

(** X14: the last report wins: after any run the active id is the section
    of the last observer callback that carried an intersecting entry, and
    the initial id if there was none. *)
Theorem last_report_wins (document : list string) (es : list Event)
    (s : State)
    (Hrun : run es (mount document) = Some s) :
  activeId s
  = default (default "" (head ids))
      (last (reports (filter (λ i, i ∈ document) ids) es)).
Proof. by rewrite (run_last_report _ _ _ Hrun). Qed.

Lemma active_link_count (a : string) (l : list NavLink) :
  NoDup ((λ x, slice1 (href x)) <$> l) →
  a ∈ (λ x, slice1 (href x)) <$> l →
  length (filter (λ x, a = slice1 (href x)) l) = 1.
Proof.
  induction l as [|x l IH]; [by intros _ ?%elem_of_nil|].
  rewrite fmap_cons. intros [Hx Hnd]%NoDup_cons Hin. rewrite filter_cons.
  destruct (decide (a = slice1 (href x))) as [->|Hne].
  - cbn. f_equal.
    destruct (filter (λ y, slice1 (href x) = slice1 (href y)) l)
      as [|y k] eqn:Hf; [done|].
    assert (y ∈ filter (λ y, slice1 (href x) = slice1 (href y)) l) as Hy.
    { rewrite Hf. by left. }
    apply list_elem_of_filter in Hy as [Heq Hy]. destruct Hx.
    apply list_elem_of_fmap. by exists y.
  - apply elem_of_cons in Hin as [?|Hin]; [done|]. by apply IH.
Qed.

Lemma linkViews_active (s : State) (l : list NavLink) :
  length (filter (λ v, isActive v = true)
            ((λ x, {| link := x;
                      isActive := bool_decide (activeId s = slice1 (href x)) |})
             <$> l))
  = length (filter (λ x, activeId s = slice1 (href x)) l).
Proof.
  induction l as [|x l IH]; [done|]. cbn [fmap list_fmap].
  rewrite !filter_cons. cbn [isActive].
  destruct (decide (activeId s = slice1 (href x))) as [Heq|Hne].
  - rewrite decide_True by (by apply bool_decide_eq_true_2). cbn. by rewrite IH.
  - rewrite decide_False by (by rewrite bool_decide_eq_false_2). exact IH.
Qed.

(** X15: with at least one link and distinct section ids, exactly one link
    of the bar is rendered as active after any run, and the mobile
    dropdown, when open, shows the same links. *)
Theorem one_link_active (document : list string) (es : list Event) (s : State)
    (Hlinks : links ≠ []) (Hdistinct : NoDup ids)
    (Hrun : run es (mount document) = Some s) :
  length (filter (λ v, isActive v = true) (desktop (view s))) = 1
  ∧ (mobileOpen s = true → dropdown (view s) = Some (desktop (view s)))
  ∧ (mobileOpen s = false → dropdown (view s) = None).
Proof.
  split; [|by split; intros Hm; cbn; rewrite Hm].
  cbn. unfold linkViews. rewrite linkViews_active.
  apply active_link_count; [done|].
  destruct (run_active_id _ _ _ Hrun) as [->|Hobs].
  - cbn. destruct links as [|x l]; [done|]. cbn. by left.
  - cbn in Hobs. by apply list_elem_of_filter in Hobs as [_ ?].
Qed.

(** X16: a scroll report never opens or closes the menu; the hamburger and
    the links never change the active id; a link click always closes the
    menu, and scrolls exactly when its target has an element; a second
    click on the hamburger undoes the first. *)
Theorem menu_and_highlight (e : Event) (s s' : State)
    (scrolled : option string)
    (Hstep : step e s = Some (s', scrolled)) :
  match e with
  | Intersect _ _ => mobileOpen s' = mobileOpen s ∧ scrolled = None
  | Hamburger =>
      activeId s' = activeId s ∧ scrolled = None
      ∧ step Hamburger s' = Some (s, None)
  | LinkClick document target =>
      activeId s' = activeId s ∧ dropdown (view s') = None
      ∧ (scrolled = Some (slice1 target) ↔ slice1 target ∈ document)
      ∧ (scrolled = None ↔ slice1 target ∉ document)
  | Unmount => observers s' = [] ∧ ∀ e', step e' s' = None
  end.
Proof.
  unfold step in Hstep. destruct (mounted s) eqn:Hon; [|done].
  destruct e as [k entries| |document target|]; cbn in Hstep.
  - destruct (observers s !! k); [|done]. by injection Hstep as <- <-.
  - injection Hstep as <- <-. cbn. split; [done|]. split; [done|].
    unfold step. cbn. rewrite negb_involutive. destruct s; cbn in *. by subst.
  - case_bool_decide; [|done]. injection Hstep as <- <-. cbn.
    split; [done|]. split; [done|]. case_bool_decide; split; by split.
  - injection Hstep as <- <-. cbn. split; [done|]. by intros e'.
Qed.

End NavFacts.

(** ** The navigation bar on the page *)

Section PageNavFacts.
Import Nav.
Context (REGISTRY_DATA : list ImplantRecord).

Lemma initial_element_ids :
  page_element_ids REGISTRY_DATA initial_hooks
  = [ "hero"; "clinical-problem"; "platform"; "vision"; "team";
      "clinical-problem-registry"; "dashboard"; "comparison-mode"; "registry";
      "analytics"; "governance"; "audit"; "pilot-scope"; "implementation";
      "scope"; "compliance"; "collaboration" ].
Proof. reflexivity. Qed.

(** X17: on the page as first rendered the comparison panel has no element,
    so the bar observes every section of its link list except
    "comparison": the Comparison link is never rendered as active, and a
    click on it scrolls only while the comparison panel is rendered. *)
Theorem comparison_link_never_active (es : list Event) (s : State)
    (Hrun : run NAV_LINKS es
              (mount NAV_LINKS (page_element_ids REGISTRY_DATA initial_hooks))
            = Some s) :
  activeId s ≠ "comparison"
  ∧ observers (mount NAV_LINKS (page_element_ids REGISTRY_DATA initial_hooks))
    = filter (λ i, i ≠ "comparison") (section_ids NAV_LINKS)
  ∧ Forall (λ v, href (link v) = "#comparison" → isActive v = false)
      (desktop (view NAV_LINKS s))
  ∧ ∀ h s' scrolled,
      step NAV_LINKS
        (LinkClick (page_element_ids REGISTRY_DATA h) "#comparison") s
      = Some (s', scrolled) →
      (scrolled = Some "comparison"
       ↔ comparisonPanelRendered REGISTRY_DATA h = true).
Proof.
  assert (activeId s ≠ "comparison") as Hactive.
  { destruct (run_active_id _ _ _ _ Hrun) as [->|Hobs]; [done|].
    rewrite initial_element_ids in Hobs. intros Heq. rewrite Heq in Hobs.
    revert Hobs. by_compute. }
  split_and!.
  - done.
  - rewrite initial_element_ids. by vm_compute.
  - apply Forall_forall. intros v Hv Hhref.
    unfold view, desktop, linkViews in Hv.
    apply list_elem_of_fmap in Hv as (l & -> & Hl). cbn in *.
    apply bool_decide_eq_false_2. by rewrite Hhref.
  - intros h s' scrolled. unfold step.
    destruct (mounted s); [|done]. cbn.
    rewrite bool_decide_eq_true_2 by by_compute.
    intros [= _ <-]. unfold page_element_ids.
    destruct (comparisonPanelRendered REGISTRY_DATA h).
    + rewrite bool_decide_eq_true_2; [done|]. by_compute.
    + rewrite bool_decide_eq_false_2; [done|]. by_compute.
Qed.

End PageNavFacts.

(** ** The reveal-on-scroll hook *)

Section FadeInFacts.
Import FadeIn.

Lemma classList_add_idem (token : string) (classes : list string) :
  classList_add token (classList_add token classes)
  = classList_add token classes.
Proof.
  unfold classList_add. destruct (decide (token ∈ classes)) as [Hin|Hout].
  - by rewrite decide_True.
  - rewrite decide_True; [done|]. apply elem_of_app. right. by left.
Qed.

Lemma reveal_callback_cases (entries : list bool) (classes : list string) :
  callback entries classes
  = if existsb (λ b, b) entries
    then classList_add "is-visible" classes else classes.
Proof.
  revert classes. induction entries as [|[] entries IH]; intros classes; cbn.
  - done.
  - rewrite IH, classList_add_idem. by destruct (existsb _ entries).
  - apply IH.
Qed.

Lemma step_mounted (e : Event) (s s' : State) :
  step e s = Some s' →
  observing s = true
  ∧ classList s'
    = (if intersecting e
       then classList_add "is-visible" (classList s) else classList s)
  ∧ observing s' = negb (bool_decide (e = Unmount)).
Proof.
  unfold step. destruct (observing s); [|done].
  destruct e as [entries|]; intros [= <-]; cbn.
  - by rewrite reveal_callback_cases.
  - done.
Qed.

Lemma run_classList (es : list Event) (s0 s : State) :
  run es s0 = Some s →
  classList s
  = (if existsb intersecting es
     then classList_add "is-visible" (classList s0) else classList s0)
  ∧ observing s
    = observing s0 && negb (bool_decide (Unmount ∈ es)).
Proof.
  revert s0. induction es as [|e es IH]; intros s0; cbn.
  - intros [= <-]. split; [done|].
    rewrite bool_decide_eq_false_2 by apply not_elem_of_nil.
    by rewrite andb_true_r.
  - destruct (step e s0) as [s1|] eqn:Hstep; [|done]. cbn. intros Hrun.
    destruct (step_mounted _ _ _ Hstep) as (Hon & Hclasses & Hobs).
    destruct (IH _ Hrun) as [-> ->]. rewrite Hclasses, Hobs, Hon. split.
    + destruct (intersecting e); cbn; [|done].
      rewrite classList_add_idem. by destruct (existsb intersecting es).
    + cbn. destruct e as [entries|].
      * rewrite (bool_decide_eq_false_2 (Notify entries = Unmount)) by done.
        cbn. f_equal. apply bool_decide_ext. rewrite elem_of_cons.
        split; [by right|by intros [?|?]].
      * rewrite (bool_decide_eq_true_2 (Unmount = Unmount)) by done. cbn.
        rewrite bool_decide_eq_true_2; [done|by left].
Qed.

(** X18: the reveal never reverses: after any run the class list of a
    wrapped block is its initial one, with "is-visible" added (once, at
    the end) exactly if some notification carried an intersecting entry;
    later notifications change nothing; and the observer stays connected
    after the reveal, until the block unmounts. *)
Theorem reveal_is_permanent (classes : list string) (es : list Event)
    (s : State)
    (Hrun : run es (mount classes) = Some s) :
  classList s
  = (if existsb intersecting es
     then classList_add "is-visible" classes else classes)
  ∧ observing s = negb (bool_decide (Unmount ∈ es))
  ∧ ∀ e s', step e s = Some s' → "is-visible" ∈ classList s →
      classList s' = classList s.
Proof.
  destruct (run_classList _ _ _ Hrun) as [Hclasses Hobs].
  split; [done|]. split; [done|].
  intros e s' Hstep Hin.
  destruct (step_mounted _ _ _ Hstep) as (_ & -> & _).
  destruct (intersecting e); [|done].
  unfold classList_add. by rewrite decide_True.
Qed.

End FadeInFacts.

(** ** The further statements on the sample registry *)

Lemma highlights_match_counter_witness :
  run sample_registry compare_three initial = Some (sample_page compare_three)
  ∧ length (filter (λ row, highlighted row = true)
              (registryRows sample_registry sample_duration
                 (sample_hooks compare_three)))
    = length (selectedIds (sample_hooks compare_three)).
Proof.
  split; [by vm_compute|].
  edestruct (highlights_match_counter sample_registry sample_duration
               sample_ids_unique compare_three (sample_page compare_three)
               (sample_hooks compare_three)) as (Hcount & _).
  - by vm_compute.
  - by vm_compute.
  - exact Hcount.
Defined.

Lemma comparison_table_aligned_witness :
  run sample_registry compare_three initial = Some (sample_page compare_three)
  ∧ ∃ table,
      comparisonTable sample_registry sample_duration (sample_hooks compare_three)
      = Some table
      ∧ length (header table)
        = S (length (selectedIds (sample_hooks compare_three))).
Proof.
  split; [by vm_compute|].
  destruct (comparisonTable sample_registry sample_duration
              (sample_hooks compare_three)) as [table|] eqn:Htable;
    [|by vm_compute in Htable].
  exists table. split; [done|].
  edestruct (comparison_table_aligned sample_registry sample_duration
               sample_ids_unique compare_three (sample_page compare_three)
               (sample_hooks compare_three) table) as (_ & _ & Hlen & _).
  - by vm_compute.
  - by vm_compute.
  - exact Htable.
  - exact Hlen.
Defined.

Lemma selection_order_unobservable_witness :
  selectedIds (sample_hooks compare_reversed) = ["IMP-3"; "IMP-1"]
  ∧ comparisonTable sample_registry sample_duration
      (sample_hooks compare_reversed)
    = comparisonTable sample_registry sample_duration
        (set_selectedIds ["IMP-1"; "IMP-3"] (sample_hooks compare_reversed)).
Proof.
  split; [by vm_compute|].
  edestruct (selection_order_unobservable sample_registry sample_duration
               (sample_hooks compare_reversed)
               (set_selectedIds ["IMP-1"; "IMP-3"]
                  (sample_hooks compare_reversed)))
    as (_ & _ & _ & Htable & _).
  - apply perm_swap.
  - by vm_compute.
  - by vm_compute.
  - exact Htable.
Defined.

Lemma toggle_new_round_trip_witness :
  dispatch sample_registry (RowClick 4)
    (sample_page [SwitchChange true; RowClick 0])
  = Some (sample_page [SwitchChange true; RowClick 0; RowClick 4], [])
  ∧ dispatch sample_registry (RowClick 4)
      (sample_page [SwitchChange true; RowClick 0; RowClick 4])
    = Some (sample_page [SwitchChange true; RowClick 0], []).
Proof.
  edestruct (toggle_new_round_trip sample_registry
               (sample_page [SwitchChange true; RowClick 0])
               (sample_hooks [SwitchChange true; RowClick 0]) 4
               (sample_record 5 "Scheduled" review Moderate))
    as (Hadd & _ & Hback).
  - by vm_compute.
  - by vm_compute.
  - by vm_compute.
  - by_compute.
  - by_compute.
  - split; [exact Hadd|exact Hback].
Defined.

Lemma clear_selection_resets_witness :
  clearButtonRendered (sample_hooks compare_three) = true
  ∧ ∃ pg', dispatch sample_registry ClearSelection (sample_page compare_three)
           = Some (pg', [])
           ∧ dispatch sample_registry ClearSelection pg' = None.
Proof.
  split; [by vm_compute|].
  edestruct (clear_selection_resets sample_registry sample_duration
               (sample_page compare_three) (sample_hooks compare_three))
    as (pg' & h' & Hd & _ & _ & _ & _ & _ & _ & _ & Hgone & _).
  - by vm_compute.
  - by vm_compute.
  - exists pg'. split; [exact Hd|exact Hgone].
Defined.


Lemma interaction_frame_witness :
  dispatch sample_registry (RowClick 0) initial
  = Some (sample_page [RowClick 0], [])
  ∧ selectedIds (sample_hooks [RowClick 0]) = selectedIds initial_hooks.
Proof.
  assert (dispatch sample_registry (RowClick 0) initial
          = Some (sample_page [RowClick 0], [])) as Hd.
  { by vm_compute. }
  split; [exact Hd|].
  edestruct (interaction_frame sample_registry (RowClick 0) initial
               (sample_page [RowClick 0]) initial_hooks
               (sample_hooks [RowClick 0]) [])
    as [(Hrec & _)|(_ & Hids & _)].
  - done.
  - exact Hd.
  - by vm_compute.
  - by vm_compute in Hrec.
  - exact Hids.
Defined.

Lemma comparison_mode_leaves_no_trace_witness :
  run sample_registry
    [SwitchChange true; RowClick 0; RowClick 1; CompareSelected; RowClick 1]
    (sample_page [RowClick 2; ClosePanel])
  = Some (sample_page [RowClick 2; ClosePanel; SwitchChange true; RowClick 0;
                       RowClick 1; CompareSelected; RowClick 1])
  ∧ dispatch sample_registry (SwitchChange false)
      (sample_page [RowClick 2; ClosePanel; SwitchChange true; RowClick 0;
                    RowClick 1; CompareSelected; RowClick 1])
    = Some (sample_page [RowClick 2; ClosePanel], []).
Proof.
  split; [by vm_compute|].
  apply (comparison_mode_leaves_no_trace sample_registry
           [RowClick 2; ClosePanel]
           [RowClick 0; RowClick 1; CompareSelected; RowClick 1]
           (sample_page [RowClick 2; ClosePanel]) _
           (sample_hooks [RowClick 2; ClosePanel])).
  - by vm_compute.
  - by vm_compute.
  - by vm_compute.
  - by vm_compute.
  - by vm_compute.
Defined.

Lemma stray_keys_are_idle_witness :
  run sample_registry [RowClick 0] initial = Some (sample_page [RowClick 0])
  ∧ dispatch sample_registry (KeyDown Body "Tab") (sample_page [RowClick 0])
    = Some (sample_page [RowClick 0], []).
Proof.
  split; [by vm_compute|].
  apply (stray_keys_are_idle sample_registry [RowClick 0]).
  - by vm_compute.
  - by right.
Defined.

(** A scroll down the page: the platform section, then the dashboard. *)
Lemma active_id_observed_witness :
  ∃ s, Nav.run Nav.NAV_LINKS [Nav.Intersect 2 [true]; Nav.Intersect 6 [false; true]]
         (Nav.mount Nav.NAV_LINKS (page_element_ids sample_registry initial_hooks))
       = Some s
       ∧ (Nav.activeId s = default "" (head (Nav.section_ids Nav.NAV_LINKS))
          ∨ (Nav.activeId s ∈ Nav.section_ids Nav.NAV_LINKS
             ∧ Nav.activeId s
               ∈ page_element_ids sample_registry initial_hooks)).
Proof.
  eexists. split; [by vm_compute|].
  apply (active_id_observed Nav.NAV_LINKS
           (page_element_ids sample_registry initial_hooks)
           [Nav.Intersect 2 [true]; Nav.Intersect 6 [false; true]]).
  by vm_compute.
Defined.

Lemma last_report_wins_witness :
  ∃ s, Nav.run Nav.NAV_LINKS
         [Nav.Intersect 2 [true]; Nav.Hamburger; Nav.Intersect 6 [false]]
         (Nav.mount Nav.NAV_LINKS (page_element_ids sample_registry initial_hooks))
       = Some s
       ∧ Nav.activeId s = "platform".
Proof.
  eexists. split; [by vm_compute|].
  rewrite (last_report_wins Nav.NAV_LINKS
             (page_element_ids sample_registry initial_hooks)
             [Nav.Intersect 2 [true]; Nav.Hamburger; Nav.Intersect 6 [false]]).
  - by vm_compute.
  - by vm_compute.
Defined.

Lemma one_link_active_witness :
  ∃ s, Nav.run Nav.NAV_LINKS [Nav.Intersect 6 [true]; Nav.Hamburger]
         (Nav.mount Nav.NAV_LINKS (page_element_ids sample_registry initial_hooks))
       = Some s
       ∧ length (filter (λ v, Nav.isActive v = true)
                   (Nav.desktop (Nav.view Nav.NAV_LINKS s))) = 1.
Proof.
  eexists. split; [by vm_compute|].
  apply (one_link_active Nav.NAV_LINKS
           (page_element_ids sample_registry initial_hooks)
           [Nav.Intersect 6 [true]; Nav.Hamburger]).
  - done.
  - by_compute.
  - by vm_compute.
Defined.

Lemma menu_and_highlight_witness :
  ∃ s', Nav.step Nav.NAV_LINKS
          (Nav.LinkClick (page_element_ids sample_registry initial_hooks)
             "#comparison")
          (Nav.mount Nav.NAV_LINKS
             (page_element_ids sample_registry initial_hooks))
        = Some (s', None)
        ∧ Nav.dropdown (Nav.view Nav.NAV_LINKS s') = None.
Proof.
  eexists. split; [by vm_compute|].
  apply (menu_and_highlight Nav.NAV_LINKS
           (Nav.LinkClick (page_element_ids sample_registry initial_hooks)
              "#comparison")
           (Nav.mount Nav.NAV_LINKS
              (page_element_ids sample_registry initial_hooks)) _ None).
  by vm_compute.
Defined.

Lemma comparison_link_never_active_witness :
  ∃ s, Nav.run Nav.NAV_LINKS [Nav.Intersect 8 [true]; Nav.Intersect 9 [true]]
         (Nav.mount Nav.NAV_LINKS (page_element_ids sample_registry initial_hooks))
       = Some s
       ∧ Nav.activeId s ≠ "comparison".
Proof.
  eexists. split; [by vm_compute|].
  apply (comparison_link_never_active sample_registry
           [Nav.Intersect 8 [true]; Nav.Intersect 9 [true]]).
  by vm_compute.
Defined.

Lemma reveal_is_permanent_witness :
  ∃ s, FadeIn.run [FadeIn.Notify [false]; FadeIn.Notify [true];
                   FadeIn.Notify [false; true]]
         (FadeIn.mount ["fade-in-section"])
       = Some s
       ∧ FadeIn.classList s = ["fade-in-section"; "is-visible"]
       ∧ FadeIn.observing s = true.
Proof.
  eexists. split; [by vm_compute|].
  edestruct (reveal_is_permanent ["fade-in-section"]
               [FadeIn.Notify [false]; FadeIn.Notify [true];
                FadeIn.Notify [false; true]])
    as (Hclasses & Hobs & _).
  - by vm_compute.
  - split; [exact Hclasses|exact Hobs].
Defined.
